(** * GW2 build manager: the build-link codec of [main.py]

    A shallow embedding of [decode_build_link] and [encode_build_link]
    together with the Python primitives they call ([str.startswith],
    [str.endswith], slicing, [hex], [bytes.hex], [base64.b64encode] and
    [base64.b64decode]), followed by the properties of the codec; then
    [list_saved_builds] with [os.path.splitext], as a function of the
    directory listing, and the indexing step of the menus of
    [create_new_build_cli].  The functions that only talk to the network,
    the file system or the console are not embedded.

    Conventions.  A Python [str] is a list of code points ([N]); a [bytes]
    object is a list of [Z], each meant to lie in [0, 256).  A call either
    returns a value, returns [None] at one of the four sites of
    [decode_build_link] that do so, or lets an exception escape.  Console
    output is not modelled: the message printed before a [return None] is
    noted next to the tag of that site.  [binascii.a2b_base64] is the scan
    of CPython with [strict_mode] off, which [base64.b64decode] runs when
    [validate] keeps its default. *)

From Stdlib Require Import ZArith NArith List Bool Lia String Ascii.
Import ListNotations.
Open Scope Z_scope.

(** ** Python primitives *)

Module Py.

Definition str := list N.
Definition bytes := list Z.

(** A string literal of the source, as its code points. *)
Definition lit (s : string) : str :=
  map N_of_ascii (list_ascii_of_string s).
Arguments lit s%_string.

Definition is_byte (b : Z) : Prop := 0 <= b < 256.
Definition is_bytes (bs : bytes) : Prop := Forall is_byte bs.

(** [s.startswith(prefix)] *)
Fixpoint startswith (prefix s : str) : bool :=
  match prefix, s with
  | [], _ => true
  | _ :: _, [] => false
  | p :: prefix', c :: s' => N.eqb p c && startswith prefix' s'
  end.

(** [s.endswith(suffix)] *)
Definition endswith (suffix s : str) : bool :=
  startswith (rev suffix) (rev s).

(** Normalisation of one slice bound against the length, as CPython's
    [PySlice_AdjustIndices] does for a step of 1. *)
Definition adjust_index (len i : Z) : Z :=
  if i <? 0 then Z.max 0 (i + len) else Z.min i len.

(** [s[start:stop]] *)
Definition slice {A : Type} (s : list A) (start stop : Z) : list A :=
  let len := Z.of_nat (List.length s) in
  let lo := adjust_index len start in
  let hi := adjust_index len stop in
  firstn (Z.to_nat (hi - lo)) (skipn (Z.to_nat lo) s).

Definition hexdigits : str := lit "0123456789abcdef".

Definition hexdigit (d : Z) : N := nth (Z.to_nat d) hexdigits 0%N.

Fixpoint hex_digits (fuel : nat) (n : Z) (acc : str) : str :=
  match fuel with
  | O => acc
  | S fuel' =>
      let acc' := hexdigit (n mod 16) :: acc in
      if n / 16 =? 0 then acc' else hex_digits fuel' (n / 16) acc'
  end.

(** [hex(n)]: lower-case digits, no leading zero, prefix [0x]. *)
Definition hex (n : Z) : str :=
  let digits m := hex_digits (S (Z.to_nat (Z.log2 m))) m [] in
  if n <? 0 then lit "-0x" ++ digits (- n) else lit "0x" ++ digits n.

(** [bs.hex()]: two lower-case digits per byte. *)
Definition bytes_hex (bs : bytes) : str :=
  flat_map (fun b => [hexdigit (b / 16); hexdigit (b mod 16)]) bs.

(** What a call can do: return a value, return [None] (tagged by the
    [return None] statement reached), or raise. *)
Inductive exn := binascii_Error | ValueError.

Inductive outcome (F A : Type) :=
| Return (a : A)
| ReturnNone (why : F)
| Raise (e : exn).
Arguments Return {F A} a.
Arguments ReturnNone {F A} why.
Arguments Raise {F A} e.

Definition bind {F A B} (m : outcome F A) (k : A -> outcome F B) : outcome F B :=
  match m with
  | Return a => k a
  | ReturnNone why => ReturnNone why
  | Raise e => Raise e
  end.

End Py.

(** ** [base64] / [binascii] *)

Module Base64.
Import Py.

Definition BASE64_PAD : Z := 61. (* '=' *)

Definition table_b2a_base64 : str :=
  lit "ABCDEFGHIJKLMNOPQRSTUVWXYZabcdefghijklmnopqrstuvwxyz0123456789+/".

Definition b2a (sextet : Z) : Z :=
  Z.of_N (nth (Z.to_nat (Z.land sextet 63)) table_b2a_base64 0%N).

(** [table_a2b_base64]: the value of an alphabet character, 64 for every
    other byte. *)
Definition table_a2b_base64 (c : Z) : Z :=
  if (65 <=? c) && (c <=? 90) then c - 65
  else if (97 <=? c) && (c <=? 122) then c - 71
  else if (48 <=? c) && (c <=? 57) then c + 4
  else if c =? 43 then 62
  else if c =? 47 then 63
  else 64.

(** [binascii.b2a_base64(data, newline=False)]: three bytes give four
    characters; a last group of one or two bytes is padded with [=]. *)
Fixpoint b2a_base64 (bin_data : bytes) : bytes :=
  match bin_data with
  | [] => []
  | [b0] =>
      [ b2a (Z.shiftr b0 2);
        b2a (Z.shiftl (Z.land b0 3) 4);
        BASE64_PAD; BASE64_PAD ]
  | [b0; b1] =>
      [ b2a (Z.shiftr b0 2);
        b2a (Z.lor (Z.shiftl (Z.land b0 3) 4) (Z.shiftr b1 4));
        b2a (Z.shiftl (Z.land b1 15) 2);
        BASE64_PAD ]
  | b0 :: b1 :: b2 :: rest =>
      b2a (Z.shiftr b0 2)
      :: b2a (Z.lor (Z.shiftl (Z.land b0 3) 4) (Z.shiftr b1 4))
      :: b2a (Z.lor (Z.shiftl (Z.land b1 15) 2) (Z.shiftr b2 6))
      :: b2a b2
      :: b2a_base64 rest
  end.

(** The scanning loop of [binascii.a2b_base64] with [strict_mode] off.
    [quad_pos] counts the alphabet characters of the current group,
    [leftchar] holds the bits not written yet, [pads] the [=] seen since the
    last alphabet character; stores into [bin_data] are [unsigned char]. *)
Fixpoint a2b_loop (ascii_data : bytes) (quad_pos leftchar pads : Z)
         (bin_data : bytes) : exn + bytes :=
  match ascii_data with
  | [] =>
      if quad_pos =? 0 then inr bin_data else inl binascii_Error
  | this_ch :: rest =>
      if this_ch =? BASE64_PAD then
        if 2 <=? quad_pos then
          if 4 <=? quad_pos + (pads + 1) then inr bin_data
          else a2b_loop rest quad_pos leftchar (pads + 1) bin_data
        else a2b_loop rest quad_pos leftchar pads bin_data
      else
        let v := table_a2b_base64 this_ch in
        if 64 <=? v then a2b_loop rest quad_pos leftchar pads bin_data
        else if quad_pos =? 0 then
          a2b_loop rest 1 v 0 bin_data
        else if quad_pos =? 1 then
          a2b_loop rest 2 (Z.land v 15) 0
            (bin_data ++ [Z.land (Z.lor (Z.shiftl leftchar 2) (Z.shiftr v 4)) 255])
        else if quad_pos =? 2 then
          a2b_loop rest 3 (Z.land v 3) 0
            (bin_data ++ [Z.land (Z.lor (Z.shiftl leftchar 4) (Z.shiftr v 2)) 255])
        else
          a2b_loop rest 0 0 0
            (bin_data ++ [Z.land (Z.lor (Z.shiftl leftchar 6) v) 255])
  end.

Definition a2b_base64 (ascii_data : bytes) : exn + bytes :=
  a2b_loop ascii_data 0 0 0 [].

(** [base64.b64encode(s).decode('utf-8')] *)
Definition b64encode (s : bytes) : str :=
  map Z.to_N (b2a_base64 s).

(** [base64.b64decode(s)] on a [str]: [s.encode('ascii')], which raises
    [ValueError] on a code point above 127, then [a2b_base64]. *)
Definition b64decode (s : str) : exn + bytes :=
  if forallb (fun c => N.ltb c 128) s
  then a2b_base64 (map Z.of_N s)
  else inl ValueError.

End Base64.

(** ** [os.path] (POSIX) and list indexing *)

Module OsPath.
Import Py.

Definition sep : N := 47.    (* '/' *)
Definition extsep : N := 46. (* '.' *)

Fixpoint rfind_from (s : str) (ch : N) (i last : Z) : Z :=
  match s with
  | [] => last
  | c :: s' => rfind_from s' ch (i + 1) (if N.eqb c ch then i else last)
  end.

(** [s.rfind(ch)] for a single character: the highest index, or -1. *)
Definition rfind (s : str) (ch : N) : Z := rfind_from s ch 0 (-1).

Fixpoint str_eqb (a b : str) : bool :=
  match a, b with
  | [], [] => true
  | x :: a', y :: b' => N.eqb x y && str_eqb a' b'
  | _, _ => false
  end.

(** The loop of [genericpath._splitext] that steps over leading dots:
    [true] when a character other than the dot stands before [dotIndex]
    (the loop returns the split there), [false] when the loop runs out. *)
Fixpoint has_stem (fuel : nat) (p : str) (filenameIndex dotIndex : Z) : bool :=
  match fuel with
  | O => false
  | S fuel' =>
      if filenameIndex <? dotIndex then
        if negb (str_eqb (slice p filenameIndex (filenameIndex + 1)) [extsep])
        then true
        else has_stem fuel' p (filenameIndex + 1) dotIndex
      else false
  end.

(** [os.path.splitext(p)] *)
Definition splitext (p : str) : str * str :=
  let sepIndex := rfind p sep in
  let dotIndex := rfind p extsep in
  if (sepIndex <? dotIndex)
     && has_stem (Z.to_nat (dotIndex - (sepIndex + 1))) p (sepIndex + 1) dotIndex
  then (slice p 0 dotIndex, slice p dotIndex (Z.of_nat (List.length p)))
  else (p, []).

(** [l[i]]: a negative index counts from the end; [None] is [IndexError]. *)
Definition getitem {A : Type} (l : list A) (i : Z) : option A :=
  let len := Z.of_nat (List.length l) in
  let j := if i <? 0 then i + len else i in
  if (j <? 0) || (len <=? j) then None else nth_error l (Z.to_nat j).

End OsPath.

(** ** [main.py] *)

Import Py Base64 OsPath.

(** The four [return None] statements of [decode_build_link]. *)
Inductive failure :=
| BadEnvelope    (* line 62: "Invalid build link format. ..." *)
| BadEncoding    (* line 70: "Error decoding base64 part of the link: ..." *)
| EmptyPayload   (* line 79: nothing printed *)
| TooShort.      (* line 111: "Decoded bytes too short for basic parsing. ..." *)

(** The dictionary built at lines 101-108. *)
Record decoded := {
  link_type : str;
  version : Z;
  profession_id_simplified : Z;
  raw_bytes_hex : str;
  note : str
}.

Definition result := outcome failure.

(** Lines 59-70: the envelope check, the slice and the base64 step. *)
Definition decode_envelope (link_string : str) : result bytes :=
  if negb (startswith (lit "[&") link_string) || negb (endswith (lit "]") link_string)
  then ReturnNone BadEnvelope
  else
    let base64_part := slice link_string 2 (-1) in
    match b64decode base64_part with
    | inr decoded_bytes => Return decoded_bytes
    | inl binascii_Error => ReturnNone BadEncoding
    | inl ValueError => Raise ValueError
    end.

(** Lines 77-111: the reads of bytes 0, 1 and 2; an [IndexError] of any of
    them is caught at line 109. *)
Definition parse_decoded_bytes (decoded_bytes : bytes) : result decoded :=
  match decoded_bytes with
  | [] => ReturnNone EmptyPayload
  | _ :: _ =>
      match nth_error decoded_bytes 0, nth_error decoded_bytes 1,
            nth_error decoded_bytes 2 with
      | Some link_type, Some version, Some profession_id =>
          Return {| link_type := hex link_type;
                    version := version;
                    profession_id_simplified := profession_id;
                    raw_bytes_hex := bytes_hex decoded_bytes;
                    note := lit "Decoding is complex and requires full GW2 build code spec." |}
      | _, _, _ => ReturnNone TooShort
      end
  end.

Definition decode_build_link (link_string : str) : result decoded :=
  bind (decode_envelope link_string) parse_decoded_bytes.

(** Line 156. *)
Definition dummy_binary_data : bytes :=
  [0x0A; 0x01; 0x02; 0x01; 0x02; 0x03; 0x04; 0x05; 0x06; 0x07; 0x08; 0x09;
   0x0A; 0x0B; 0x0C].

(** Lines 157-158, for any payload: base64, then the brackets of the
    f-string (an opening bracket without ampersand). *)
Definition encode_envelope (binary_data : bytes) : str :=
  lit "[" ++ b64encode binary_data ++ lit "]".

(** [encode_build_link]: the argument is never read. *)
Definition encode_build_link {A : Type} (build_data : A) : str :=
  encode_envelope dummy_binary_data.

(** The link type the comments of lines 86, 131 and 146 give to build links. *)
Definition T_BUILD : Z := 0x0A.

(** Lines 171 and 188: the file name [f"{build_name}.json"] under which
    [save_build] writes a build and [load_build] looks for it. *)
Definition build_file (build_name : str) : str := build_name ++ lit ".json".

(** [list_saved_builds], lines 208-217, as a function of what
    [os.listdir(BUILDS_DIR)] returns. *)
Definition list_saved_builds (listing : list str) : list str :=
  let build_files := filter (endswith (lit ".json")) listing in
  match build_files with
  | [] => []
  | _ :: _ => map (fun f => fst (splitext f)) build_files
  end.

(** The selection of the menus of [create_new_build_cli] (lines 240-249,
    281-284 and 331-339): [options[int(choice) - 1]] on the sorted options,
    where an [IndexError] is caught and reported as invalid input ([None]).
    [number] is the value of [int(choice)]. *)
Definition menu_choice {A : Type} (options : list A) (number : Z) : option A :=
  getitem options (number - 1).

(** ** The data model of the design document *)

(** Modelled from the spec: the [BuildTemplate] of section 3, which
    [main.py] does not declare (its builds are free-form dictionaries). *)
Inductive LinkKind := BuildLink | EquipmentTemplateLink.

Record SpecializationSlot := {
  specialization_id : Z;
  trait_choices : Z * Z * Z
}.

Record SkillBar := {
  heal : Z; utility1 : Z; utility2 : Z; utility3 : Z; elite : Z
}.

Record BuildTemplate := {
  kind : LinkKind;
  profession_id : Z;
  specializations : SpecializationSlot * SpecializationSlot * SpecializationSlot;
  skills_land : SkillBar;
  skills_water : SkillBar;
  equipment : bytes
}.

Definition trait_ok (t : Z) : Prop := 0 <= t <= 3.

Definition slot_ok (s : SpecializationSlot) : Prop :=
  let '(t0, t1, t2) := trait_choices s in
  0 <= specialization_id s < 256 /\ trait_ok t0 /\ trait_ok t1 /\ trait_ok t2 /\
  (specialization_id s = 0 -> t0 = 0 /\ t1 = 0 /\ t2 = 0).

Definition skill_ok (id : Z) : Prop := 0 <= id < 65536.

Definition bar_ok (b : SkillBar) : Prop :=
  skill_ok (heal b) /\ skill_ok (utility1 b) /\ skill_ok (utility2 b) /\
  skill_ok (utility3 b) /\ skill_ok (elite b).

Definition well_formed (t : BuildTemplate) : Prop :=
  let '(s0, s1, s2) := specializations t in
  0 <= profession_id t < 256 /\ slot_ok s0 /\ slot_ok s1 /\ slot_ok s2 /\
  bar_ok (skills_land t) /\ bar_ok (skills_water t).

(** Modelled from the spec: the trait packing of section 4.2 (encode:
    [tier0 | (tier1<<2) | (tier2<<4)]; decode: [(byte >> (2*tier)) & 0b11]);
    [main.py] packs and unpacks no traits. *)
Definition pack_traits (tier0 tier1 tier2 : Z) : Z :=
  Z.lor (Z.lor tier0 (Z.shiftl tier1 2)) (Z.shiftl tier2 4).

Definition unpack_tier (byte tier : Z) : Z :=
  Z.land (Z.shiftr byte (2 * tier)) 3.

Definition unpack_traits (byte : Z) : Z * Z * Z :=
  (unpack_tier byte 0, unpack_tier byte 1, unpack_tier byte 2).

(** ** Definitions used by the statements and their proofs *)

(** A property of the integers below [n] checked by running through them. *)
Definition below (n : nat) (P : Z -> bool) : bool :=
  forallb P (map Z.of_nat (seq 0 n)).

Definition below2 (n m : nat) (P : Z -> Z -> bool) : bool :=
  below n (fun x => below m (P x)).

(** The four sextets the encoder takes from a group of three bytes (the
    fourth is the low six bits of the last byte). *)
Definition sextet0 (b0 : Z) : Z := Z.land (Z.shiftr b0 2) 63.
Definition sextet1 (b0 b1 : Z) : Z :=
  Z.land (Z.lor (Z.shiftl (Z.land b0 3) 4) (Z.shiftr b1 4)) 63.
Definition sextet2 (b1 b2 : Z) : Z :=
  Z.land (Z.lor (Z.shiftl (Z.land b1 15) 2) (Z.shiftr b2 6)) 63.

(** The characters [a2b_base64] takes as data; it steps over the others. *)
Definition is_alphabet (c : Z) : bool := table_a2b_base64 c <? 64.

Definition data_characters (ascii_data : bytes) : Z :=
  Z.of_nat (List.length (filter is_alphabet ascii_data)).

(** After [n] data characters and [k] closing pads the last group is
    unfinished when it holds one character, or two or three that the pads
    do not fill up to four. *)
Definition unfinished_group (n : Z) (k : nat) : Prop :=
  n mod 4 = 1 \/ (2 <= n mod 4 /\ n mod 4 + Z.of_nat k < 4).

(** The dictionary [decode_build_link] returns for the placeholder payload. *)
Definition dummy_decoded : decoded :=
  {| link_type := lit "0xa";
     version := 1;
     profession_id_simplified := 2;
     raw_bytes_hex := lit "0a01020102030405060708090a0b0c";
     note := lit "Decoding is complex and requires full GW2 build code spec." |}.

(** A well-formed template of the design document. *)
Definition sample_template : BuildTemplate :=
  {| kind := BuildLink;
     profession_id := 7;
     specializations :=
       ({| specialization_id := 27; trait_choices := (1, 2, 3) |},
        {| specialization_id := 42; trait_choices := (3, 1, 2) |},
        {| specialization_id := 0; trait_choices := (0, 0, 0) |});
     skills_land :=
       {| heal := 9102; utility1 := 9153; utility2 := 9168; utility3 := 9246; elite := 9154 |};
     skills_water :=
       {| heal := 9102; utility1 := 0; utility2 := 0; utility3 := 0; elite := 0 |};
     equipment := [] |}.

Definition pad_char : N := 61. (* '=' *)

(** The characters the scan of [a2b_base64] looks at: the pad and the
    alphabet. *)
Definition significant (c : Z) : bool := (c =? BASE64_PAD) || is_alphabet c.

Definition ascii_str (s : str) : Prop := Forall (fun c => (c < 128)%N) s.

(** A text between the two markers. *)
Definition framed (payload : str) : str := lit "[&" ++ payload ++ lit "]".

(** What [decode_build_link] does with decoded bytes, by their number. *)
Definition summary (decoded_bytes : bytes) : result decoded :=
  match decoded_bytes with
  | [] => ReturnNone EmptyPayload
  | [_] | [_; _] => ReturnNone TooShort
  | tag :: ver :: prof :: _ =>
      Return {| link_type := hex tag;
                version := ver;
                profession_id_simplified := prof;
                raw_bytes_hex := bytes_hex decoded_bytes;
                note := lit "Decoding is complex and requires full GW2 build code spec." |}
  end.

Definition not_dot (c : N) : bool := negb (N.eqb c extsep).

(** The standard alphabet, by its ranges: letters, digits, [+] and [/]. *)
Definition base64_char (c : N) : bool :=
  ((65 <=? c) && (c <=? 90) || (97 <=? c) && (c <=? 122)
   || (48 <=? c) && (c <=? 57) || (c =? 43) || (c =? 47))%N.

(** Base64 in the strict sense: groups of four characters of the alphabet,
    the last group possibly ending in one or two pads. *)
Fixpoint valid_base64 (s : str) : bool :=
  match s with
  | [] => true
  | [a; b; c; d] =>
      base64_char a && base64_char b &&
      ((base64_char c && (base64_char d || N.eqb d pad_char))
       || (N.eqb c pad_char && N.eqb d pad_char))
  | a :: b :: c :: d :: rest =>
      base64_char a && base64_char b && base64_char c && base64_char d
      && valid_base64 rest
  | _ => false
  end.

(** How far the lenient reading of a payload goes, told without decoding
    anything.  Only the characters of the alphabet are counted; a pad ends
    the reading when the characters counted before it are three more than a
    multiple of four, or two more and the last character before it that is
    not skipped is a pad too; the first such pad decides.  Without one the
    payload is read to its end, and the count must be a multiple of four. *)
Definition data_count (s : str) : Z :=
  Z.of_nat (List.length (filter base64_char s)).

Definition counted (c : N) : bool := base64_char c || N.eqb c pad_char.

Definition ends_on_pad (read : str) : bool :=
  match rev (filter counted read) with
  | c :: _ => N.eqb c pad_char
  | [] => false
  end.

Definition closes_group (read : str) : bool :=
  (data_count read mod 4 =? 3)
  || ((data_count read mod 4 =? 2) && ends_on_pad read).

(** What stands before each pad of [rest], in the order of the pads, when
    [read] stands before [rest]. *)
Fixpoint pad_prefixes (read rest : str) : list str :=
  match rest with
  | [] => []
  | c :: rest' =>
      (if N.eqb c pad_char then [read] else [])
      ++ pad_prefixes (read ++ [c]) rest'
  end.

(** The number of alphabet characters read, or [None] when the reading
    ends inside a group. *)
Definition consumed_from (read rest : str) : option Z :=
  match find closes_group (pad_prefixes read rest) with
  | Some stop => Some (data_count stop)
  | None =>
      if data_count (read ++ rest) mod 4 =? 0
      then Some (data_count (read ++ rest))
      else None
  end.

Definition consumed (payload : str) : option Z := consumed_from [] payload.

(** The scan and the count agree when the scan returns three bytes for
    every four characters counted, or fails where the count does. *)
Definition agrees (scanned : exn + bytes) (count : option Z) : Prop :=
  match scanned, count with
  | inr bin_data, Some n => Z.of_nat (List.length bin_data) = 3 * n / 4
  | inl e, None => e = binascii_Error
  | _, _ => False
  end.

(** ** The codec on known inputs *)

(** The test vectors of RFC 4648, the lenient scan, [hex] and [bytes.hex]. *)
Example b64encode_vectors :
  map (fun w => b64encode (map Z.of_N (lit w)))
      [EmptyString; "f"; "fo"; "foo"; "foob"; "fooba"; "foobar"]%string
  = map lit [EmptyString; "Zg=="; "Zm8="; "Zm9v"; "Zm9vYg=="; "Zm9vYmE="; "Zm9vYmFy"]%string.
Proof. reflexivity. Qed.

Example b64decode_vectors :
  map (fun w => b64decode (lit w))
      [EmptyString; "Zg=="; "Zm8="; "Zm9v"; "Zm9vYg=="; "Zm9vYmE="; "Zm9vYmFy"]%string
  = map (fun w => inr (map Z.of_N (lit w)))
      [EmptyString; "f"; "fo"; "foo"; "foob"; "fooba"; "foobar"]%string.
Proof. reflexivity. Qed.

Example b64decode_lenient :
  b64decode (lit "Zm 9v!") = inr (map Z.of_N (lit "foo")) /\
  b64decode (lit "Zg=") = inl binascii_Error /\
  b64decode (lit "Zg===") = inr (map Z.of_N (lit "f")) /\
  b64decode (lit "Z") = inl binascii_Error /\
  b64decode [233%N] = inl ValueError.
Proof. repeat split. Qed.

Example hex_values :
  map hex [0; 10; 13; 255; 256; 4095; -26]
  = map lit ["0x0"; "0xa"; "0xd"; "0xff"; "0x100"; "0xfff"; "-0x1a"]%string /\
  bytes_hex [0; 10; 255] = lit "000aff".
Proof. split; reflexivity. Qed.

Example consumed_values :
  map (fun w => consumed (lit w))
      ["A"; "AA=="; "AA="; "AA=A"; "AA= =zz"; "AAA=A"; "A=AAA"; "AAAA=";
       "A*AAA"; "=AAAA"; "CgEC"; "CgECAQ=="; "***"]%string
  = [None; Some 2; None; None; Some 2; Some 3; Some 4; Some 4;
     Some 4; Some 4; Some 4; Some 6; Some 0] /\
  consumed [] = Some 0.
Proof. split; reflexivity. Qed.

Example valid_base64_values :
  map (fun w => valid_base64 (lit w))
      ["CgEC"; "/w=="; "Zm8="; "CgECAQ=="; "A*AAA"; "AAAA="; "***"; "A"; "AA=A"]%string
  = [true; true; true; true; false; false; false; false; false].
Proof. reflexivity. Qed.

(** ** Auxiliary facts *)

Section Enumeration.

Lemma below_sound (n : nat) (P : Z -> bool) :
  below n P = true -> forall x, 0 <= x < Z.of_nat n -> P x = true.
Proof.
  unfold below. rewrite forallb_forall. intros H x Hx.
  apply H. apply in_map_iff. exists (Z.to_nat x). split; [lia|].
  apply in_seq. lia.
Qed.

Lemma below2_sound (n m : nat) (P : Z -> Z -> bool) :
  below2 n m P = true ->
  forall x y, 0 <= x < Z.of_nat n -> 0 <= y < Z.of_nat m -> P x y = true.
Proof.
  intros H x y Hx Hy.
  apply (below_sound m (P x)); [|assumption].
  apply (below_sound n (fun x => below m (P x))); assumption.
Qed.

End Enumeration.

Section Strings.

Lemma startswith_spec (prefix s : str) :
  startswith prefix s = true <-> exists rest, s = prefix ++ rest.
Proof.
  revert s. induction prefix as [|p prefix IH]; intros s; simpl.
  - split; [intros _; exists s; reflexivity | reflexivity].
  - destruct s as [|c s].
    + split; [discriminate | intros [rest H]; discriminate].
    + rewrite andb_true_iff, N.eqb_eq, IH. split.
      * intros [-> [rest ->]]. exists rest. reflexivity.
      * intros [rest H]. injection H as -> ->. split; [reflexivity | exists rest; reflexivity].
Qed.

Lemma endswith_spec (suffix s : str) :
  endswith suffix s = true <-> exists front, s = front ++ suffix.
Proof.
  unfold endswith. rewrite startswith_spec. split.
  - intros [rest H]. exists (rev rest).
    rewrite <- (rev_involutive s), H, rev_app_distr, rev_involutive. reflexivity.
  - intros [front ->]. exists (rev front). apply rev_app_distr.
Qed.

(** A text has both markers exactly when it is a payload between them. *)
Lemma envelope_shape (text : str) :
  startswith (lit "[&") text = true /\ endswith (lit "]") text = true <->
  exists payload, text = lit "[&" ++ payload ++ lit "]".
Proof.
  rewrite startswith_spec, endswith_spec. split.
  - intros [[rest Hr] [front Hf]]. subst text.
    destruct (exists_last (l := rest)) as [payload [c Hc]].
    + intros ->. destruct front as [|? [|? [|? ?]]]; discriminate.
    + subst rest. exists payload.
      change (lit "[&" ++ payload ++ [c]) with ((lit "[&" ++ payload) ++ [c]) in Hf.
      apply app_inj_tail in Hf. destruct Hf as [_ ->].
      reflexivity.
  - intros [payload ->]. split.
    + exists (payload ++ lit "]"). reflexivity.
    + exists (lit "[&" ++ payload). rewrite app_assoc. reflexivity.
Qed.

Lemma slice_envelope (payload : str) :
  slice (lit "[&" ++ payload ++ lit "]") 2 (-1) = payload.
Proof.
  unfold slice, adjust_index. simpl List.length. rewrite length_app. simpl List.length.
  replace (2 <? 0) with false by reflexivity.
  replace (-1 <? 0) with true by reflexivity.
  rewrite Z.min_l, Z.max_r by lia.
  replace (Z.to_nat 2) with 2%nat by reflexivity. simpl skipn.
  replace (Z.to_nat _) with (List.length payload) by lia.
  rewrite firstn_app, Nat.sub_diag, firstn_all. simpl. apply app_nil_r.
Qed.

End Strings.

Section Base64Facts.

Lemma land63_range (s : Z) : 0 <= Z.land s 63 < 64.
Proof.
  change 63 with (Z.ones 6). rewrite Z.land_ones by lia.
  apply Z.mod_pos_bound. lia.
Qed.

(** Every character of the alphabet is ASCII, is not the pad, and is
    mapped back to its index by [table_a2b_base64]. *)
Lemma alphabet_inverse (v : Z) :
  0 <= v < 64 ->
  let c := Z.of_N (nth (Z.to_nat v) table_b2a_base64 0%N) in
  table_a2b_base64 c = v /\ c <> BASE64_PAD /\ 0 <= c < 128.
Proof.
  intros Hv.
  pose (P := fun v =>
    let c := Z.of_N (nth (Z.to_nat v) table_b2a_base64 0%N) in
    (table_a2b_base64 c =? v) && negb (c =? BASE64_PAD) && (0 <=? c) && (c <? 128)).
  assert (H : P v = true) by (apply (below_sound 64); [vm_compute; reflexivity | exact Hv]).
  unfold P in H. cbv zeta in H.
  repeat rewrite andb_true_iff in H. destruct H as [[[H1 H2] H3] H4].
  apply Z.eqb_eq in H1. apply negb_true_iff, Z.eqb_neq in H2.
  apply Z.leb_le in H3. apply Z.ltb_lt in H4. cbv zeta. auto.
Qed.

Lemma b2a_value (s : Z) : table_a2b_base64 (b2a s) = Z.land s 63.
Proof. apply alphabet_inverse, land63_range. Qed.

Lemma b2a_not_pad (s : Z) : b2a s <> BASE64_PAD.
Proof. apply alphabet_inverse, land63_range. Qed.

Lemma b2a_ascii (s : Z) : 0 <= b2a s < 128.
Proof. apply alphabet_inverse, land63_range. Qed.

(** One turn of the loop on a character produced by the encoder. *)
Lemma a2b_loop_b2a (s : Z) (rest : bytes) (quad_pos leftchar pads : Z) (bin_data : bytes) :
  a2b_loop (b2a s :: rest) quad_pos leftchar pads bin_data =
  let v := Z.land s 63 in
  if quad_pos =? 0 then a2b_loop rest 1 v 0 bin_data
  else if quad_pos =? 1 then
    a2b_loop rest 2 (Z.land v 15) 0
      (bin_data ++ [Z.land (Z.lor (Z.shiftl leftchar 2) (Z.shiftr v 4)) 255])
  else if quad_pos =? 2 then
    a2b_loop rest 3 (Z.land v 3) 0
      (bin_data ++ [Z.land (Z.lor (Z.shiftl leftchar 4) (Z.shiftr v 2)) 255])
  else
    a2b_loop rest 0 0 0 (bin_data ++ [Z.land (Z.lor (Z.shiftl leftchar 6) v) 255]).
Proof.
  cbn [a2b_loop].
  destruct (Z.eqb_spec (b2a s) BASE64_PAD) as [E|_]; [destruct (b2a_not_pad s E)|].
  rewrite b2a_value.
  destruct (Z.leb_spec 64 (Z.land s 63)) as [E|_]; [pose proof (land63_range s); lia|].
  reflexivity.
Qed.

Lemma first_byte (b0 b1 : Z) :
  is_byte b0 -> is_byte b1 ->
  Z.land (Z.lor (Z.shiftl (sextet0 b0) 2) (Z.shiftr (sextet1 b0 b1) 4)) 255 = b0 /\
  Z.land (sextet1 b0 b1) 15 = Z.land b1 255 / 16.
Proof.
  intros H0 H1.
  pose (P := fun b0 b1 =>
    (Z.land (Z.lor (Z.shiftl (sextet0 b0) 2) (Z.shiftr (sextet1 b0 b1) 4)) 255 =? b0)
    && (Z.land (sextet1 b0 b1) 15 =? Z.land b1 255 / 16)).
  assert (H : P b0 b1 = true)
    by (apply (below2_sound 256 256); [vm_compute; reflexivity | exact H0 | exact H1]).
  unfold P in H. rewrite andb_true_iff, !Z.eqb_eq in H. exact H.
Qed.

Lemma second_byte (b1 b2 : Z) :
  is_byte b1 -> is_byte b2 ->
  Z.land (Z.lor (Z.shiftl (Z.land b1 255 / 16) 4) (Z.shiftr (sextet2 b1 b2) 2)) 255 = b1 /\
  Z.land (Z.lor (Z.shiftl (Z.land (sextet2 b1 b2) 3) 6) (Z.land b2 63)) 255 = b2.
Proof.
  intros H1 H2.
  pose (P := fun b1 b2 =>
    (Z.land (Z.lor (Z.shiftl (Z.land b1 255 / 16) 4) (Z.shiftr (sextet2 b1 b2) 2)) 255 =? b1)
    && (Z.land (Z.lor (Z.shiftl (Z.land (sextet2 b1 b2) 3) 6) (Z.land b2 63)) 255 =? b2)).
  assert (H : P b1 b2 = true)
    by (apply (below2_sound 256 256); [vm_compute; reflexivity | exact H1 | exact H2]).
  unfold P in H. rewrite andb_true_iff, !Z.eqb_eq in H. exact H.
Qed.

(** A last group of one byte is the group of that byte and a zero byte,
    a last group of two bytes the group of these and a zero byte. *)
Lemma sextet1_last (b0 : Z) :
  Z.land (Z.shiftl (Z.land b0 3) 4) 63 = sextet1 b0 0.
Proof. unfold sextet1. rewrite Z.shiftr_0_l, Z.lor_0_r. reflexivity. Qed.

Lemma sextet2_last (b1 : Z) :
  Z.land (Z.shiftl (Z.land b1 15) 2) 63 = sextet2 b1 0.
Proof. unfold sextet2. rewrite Z.shiftr_0_l, Z.lor_0_r. reflexivity. Qed.

(** Lists taken three elements at a time. *)
Lemma by_threes {A : Type} (P : list A -> Prop) :
  P [] -> (forall a, P [a]) -> (forall a b, P [a; b]) ->
  (forall a b c rest, P rest -> P (a :: b :: c :: rest)) ->
  forall l, P l.
Proof.
  intros H0 H1 H2 H3.
  assert (H : forall l, P l /\ (forall a, P (a :: l)) /\ (forall a b, P (a :: b :: l))).
  { induction l as [|x l [IH0 [IH1 IH2]]].
    - auto.
    - repeat split; auto. }
  intros l. apply H.
Qed.

Ltac turn := rewrite a2b_loop_b2a; cbv zeta; cbn [Z.eqb Pos.eqb].

(** Decoding what the encoder wrote restores the bytes. *)
Lemma a2b_loop_b2a_base64 (bs : bytes) :
  is_bytes bs ->
  forall leftchar pads bin_data,
    a2b_loop (b2a_base64 bs) 0 leftchar pads bin_data = inr (bin_data ++ bs).
Proof.
  induction bs as [|b0|b0 b1|b0 b1 b2 rest IH] using by_threes; intros Hbs l p out.
  - simpl. rewrite app_nil_r. reflexivity.
  - apply Forall_inv in Hbs.
    cbn [b2a_base64]. do 2 turn.
    rewrite sextet1_last.
    destruct (first_byte b0 0 Hbs) as [E _]; [unfold is_byte; lia|].
    fold (sextet0 b0). rewrite E. reflexivity.
  - pose proof (Forall_inv Hbs) as Hb0.
    pose proof (Forall_inv (Forall_inv_tail Hbs)) as Hb1.
    cbn [b2a_base64]. do 3 turn.
    rewrite sextet2_last. fold (sextet0 b0) (sextet1 b0 b1).
    destruct (first_byte b0 b1 Hb0 Hb1) as [E0 E1]. rewrite E0, E1.
    destruct (second_byte b1 0 Hb1) as [E2 _]; [unfold is_byte; lia|].
    rewrite E2. cbn. rewrite <- app_assoc. reflexivity.
  - pose proof (Forall_inv Hbs) as Hb0.
    pose proof (Forall_inv (Forall_inv_tail Hbs)) as Hb1.
    pose proof (Forall_inv (Forall_inv_tail (Forall_inv_tail Hbs))) as Hb2.
    pose proof (Forall_inv_tail (Forall_inv_tail (Forall_inv_tail Hbs))) as Hrest.
    cbn [b2a_base64]. do 4 turn.
    fold (sextet0 b0) (sextet1 b0 b1) (sextet2 b1 b2).
    destruct (first_byte b0 b1 Hb0 Hb1) as [E0 E1]. rewrite E0, E1.
    destruct (second_byte b1 b2 Hb1 Hb2) as [E2 E3]. rewrite E2, E3.
    rewrite (IH Hrest). rewrite <- !app_assoc. reflexivity.
Qed.

Lemma b2a_base64_ascii (bs : bytes) :
  Forall (fun c => 0 <= c < 128) (b2a_base64 bs).
Proof.
  induction bs as [|b0|b0 b1|b0 b1 b2 rest IH] using by_threes;
    cbn [b2a_base64]; repeat constructor;
    try apply b2a_ascii; try (unfold BASE64_PAD; lia); assumption.
Qed.

(** [base64.b64decode(base64.b64encode(b).decode('utf-8')) == b] *)
Lemma b64decode_b64encode (bs : bytes) :
  is_bytes bs -> b64decode (b64encode bs) = inr bs.
Proof.
  intros Hbs. unfold b64decode, b64encode.
  pose proof (b2a_base64_ascii bs) as Hascii.
  assert (Hall : forallb (fun c => N.ltb c 128) (map Z.to_N (b2a_base64 bs)) = true).
  { rewrite forallb_forall. intros c Hc. apply in_map_iff in Hc.
    destruct Hc as [z [<- Hz]]. rewrite Forall_forall in Hascii.
    specialize (Hascii z Hz). apply N.ltb_lt. lia. }
  rewrite Hall, map_map.
  rewrite (map_ext_in _ (fun z => z)), map_id.
  - apply (a2b_loop_b2a_base64 bs Hbs 0 0 []).
  - intros z Hz. rewrite Forall_forall in Hascii. specialize (Hascii z Hz). lia.
Qed.

End Base64Facts.

(** ** The lenient scan: skipped characters and padding *)

Section LenientScan.

Lemma data_characters_cons (c : Z) (cs : bytes) :
  data_characters (c :: cs) =
  (if is_alphabet c then 1 else 0) + data_characters cs.
Proof.
  unfold data_characters. cbn [filter].
  destruct (is_alphabet c); cbn [List.length]; lia.
Qed.


(** A run of [=] closes a group of two characters when it brings two pads
    and a group of three when it brings one; it is ignored elsewhere. *)
Lemma a2b_loop_pads (k : nat) :
  forall quad_pos leftchar pads bin_data,
    0 <= quad_pos < 4 -> 0 <= pads -> quad_pos + pads < 4 ->
    a2b_loop (repeat BASE64_PAD k) quad_pos leftchar pads bin_data =
    if (quad_pos =? 0) || ((2 <=? quad_pos) && (4 <=? quad_pos + pads + Z.of_nat k))
    then inr bin_data else inl binascii_Error.
Proof.
  induction k as [|k IH]; intros q l p out Hq Hp Hqp.
  - cbn [repeat a2b_loop].
    destruct (Z.eqb_spec q 0) as [->|Hq0]; [reflexivity|].
    cbn [orb].
    destruct (Z.leb_spec 2 q); cbn [andb]; [|reflexivity].
    destruct (Z.leb_spec 4 (q + p + Z.of_nat 0)); [|reflexivity]. lia.
  - cbn [repeat a2b_loop]. rewrite Z.eqb_refl.
    destruct (Z.leb_spec 2 q) as [H2|H2].
    + destruct (Z.eqb_spec q 0) as [->|_]; [lia|]. cbn [orb andb].
      destruct (Z.leb_spec 4 (q + (p + 1))) as [H4|H4].
      * destruct (Z.leb_spec 4 (q + p + Z.of_nat (S k))); [reflexivity | lia].
      * rewrite IH by lia.
        destruct (Z.eqb_spec q 0) as [->|_]; [lia|].
        destruct (Z.leb_spec 2 q); [|lia]. cbn [orb andb].
        replace (q + (p + 1) + Z.of_nat k) with (q + p + Z.of_nat (S k)) by lia.
        reflexivity.
    + rewrite IH by lia.
      destruct (Z.eqb_spec q 0) as [->|_]; [reflexivity|].
      destruct (Z.leb_spec 2 q); [lia|]. reflexivity.
Qed.


End LenientScan.

(** ** The envelope *)

Section Envelope.

Lemma decode_envelope_framed (payload : str) :
  decode_envelope (lit "[&" ++ payload ++ lit "]") =
  match b64decode payload with
  | inr decoded_bytes => Return decoded_bytes
  | inl binascii_Error => ReturnNone BadEncoding
  | inl ValueError => Raise ValueError
  end.
Proof.
  unfold decode_envelope.
  destruct (proj2 (envelope_shape (lit "[&" ++ payload ++ lit "]"))) as [-> ->].
  - exists payload. reflexivity.
  - cbn [negb orb]. rewrite slice_envelope. reflexivity.
Qed.

Lemma decode_envelope_unframed (text : str) :
  ~ (exists payload, text = lit "[&" ++ payload ++ lit "]") ->
  decode_envelope text = ReturnNone BadEnvelope.
Proof.
  intros H. unfold decode_envelope.
  destruct (startswith (lit "[&") text) eqn:Es; [|reflexivity].
  destruct (endswith (lit "]") text) eqn:Ee; [|reflexivity].
  exfalso. apply H. apply envelope_shape. auto.
Qed.

Lemma decode_envelope_BadEnvelope (text : str) :
  decode_envelope text = ReturnNone BadEnvelope <->
  ~ (exists payload, text = lit "[&" ++ payload ++ lit "]").
Proof.
  split; [|apply decode_envelope_unframed].
  intros E [payload ->]. rewrite decode_envelope_framed in E.
  destruct (b64decode payload) as [[|]|]; discriminate.
Qed.

(** With the ampersand in place the envelope is a left inverse. *)
Lemma framed_roundtrip (b : bytes) :
  is_bytes b -> decode_envelope (lit "[&" ++ b64encode b ++ lit "]") = Return b.
Proof.
  intros Hb. rewrite decode_envelope_framed, b64decode_b64encode by assumption.
  reflexivity.
Qed.

Lemma parse_never_BadEnvelope (decoded_bytes : bytes) :
  parse_decoded_bytes decoded_bytes <> ReturnNone BadEnvelope.
Proof.
  destruct decoded_bytes as [|a [|b [|c rest]]]; discriminate.
Qed.

Lemma parse_three (tag ver prof : Z) (rest : bytes) :
  parse_decoded_bytes (tag :: ver :: prof :: rest) =
  Return {| link_type := hex tag;
            version := ver;
            profession_id_simplified := prof;
            raw_bytes_hex := bytes_hex (tag :: ver :: prof :: rest);
            note := lit "Decoding is complex and requires full GW2 build code spec." |}.
Proof. reflexivity. Qed.

End Envelope.

(** ** Properties of the codec *)

Lemma b64encode_no_ampersand (b : bytes) : ~ In 38%N (b64encode b).
Proof.
  unfold b64encode. intros H. apply in_map_iff in H. destruct H as [c [Hc Hin]].
  assert (Hall : Forall (fun c => table_a2b_base64 c < 64 \/ c = BASE64_PAD) (b2a_base64 b)).
  { clear. induction b as [|b0|b0 b1|b0 b1 b2 rest IH] using by_threes;
      cbn [b2a_base64];
      repeat (apply Forall_cons;
              [first [left; rewrite b2a_value; apply land63_range | right; reflexivity]|]);
      first [apply Forall_nil | assumption]. }
  rewrite Forall_forall in Hall. specialize (Hall c Hin).
  pose proof (b2a_base64_ascii b) as Hascii. rewrite Forall_forall in Hascii.
  specialize (Hascii c Hin).
  assert (c = 38) by lia. subst c.
  destruct Hall as [Hv | Hp]; [vm_compute in Hv; discriminate | unfold BASE64_PAD in Hp; lia].
Qed.

(** C1 (as the code has it).  The envelope [encode_build_link] writes opens
    with a bracket alone, so for every byte sequence [b] the decoder refuses
    the encoded envelope at its first check instead of returning [b]. *)
Theorem encode_envelope_is_refused (b : bytes) :
  decode_envelope (encode_envelope b) = ReturnNone BadEnvelope.
Proof.
  unfold decode_envelope, encode_envelope.
  pose proof (b64encode_no_ampersand b) as Hamp.
  destruct (b64encode b) as [|c cs]; [reflexivity|].
  change (startswith (lit "[&") (lit "[" ++ (c :: cs) ++ lit "]"))
    with (N.eqb 38 c && true).
  destruct (N.eqb_spec 38 c) as [E|_]; [|reflexivity].
  exfalso. apply Hamp. left. auto.
Qed.

(** C2 (counterexample).  For a well-formed template, decoding its encoding
    returns [None] at the envelope check, not the template; and the payload
    that was encoded carries another profession than the template. *)
Lemma roundtrip_loses_template :
  well_formed sample_template /\
  decode_build_link (encode_build_link sample_template) = ReturnNone BadEnvelope /\
  (forall d, decode_build_link (encode_build_link sample_template) <> Return d) /\
  parse_decoded_bytes dummy_binary_data = Return dummy_decoded /\
  profession_id_simplified dummy_decoded <> profession_id sample_template.
Proof.
  split; [|split; [|split; [|split]]].
  - unfold well_formed, slot_ok, bar_ok, skill_ok, trait_ok. cbn. lia.
  - reflexivity.
  - intros d. discriminate.
  - reflexivity.
  - discriminate.
Qed.

(** C2 (amended).  [encode_build_link] does not read the template: for
    every [t] the link is the envelope of the fixed 15-byte placeholder, and
    decoding that payload, bare or between the markers, returns the same
    summary of its first three bytes whatever [t] was. *)
Theorem encode_is_placeholder {A : Type} (t : A) :
  encode_build_link t = encode_envelope dummy_binary_data /\
  parse_decoded_bytes dummy_binary_data = Return dummy_decoded /\
  decode_build_link (lit "[&" ++ b64encode dummy_binary_data ++ lit "]")
    = Return dummy_decoded.
Proof. repeat split. Qed.

(** C3.  Envelope decoding fails with [BadEnvelope] exactly when the text
    does not both start with the marker and end with the closing bracket;
    so does the whole of [decode_build_link]; the text without brackets of
    the design document fails so. *)
Theorem bad_envelope_iff (text : str) :
  (decode_envelope text = ReturnNone BadEnvelope <->
   ~ ((exists rest, text = lit "[&" ++ rest) /\ (exists front, text = front ++ lit "]"))) /\
  (decode_build_link text = ReturnNone BadEnvelope <->
   ~ ((exists rest, text = lit "[&" ++ rest) /\ (exists front, text = front ++ lit "]"))) /\
  decode_envelope (lit "DQYAAAA") = ReturnNone BadEnvelope.
Proof.
  assert (Hshape :
    (exists rest, text = lit "[&" ++ rest) /\ (exists front, text = front ++ lit "]") <->
    exists payload, text = lit "[&" ++ payload ++ lit "]").
  { rewrite <- startswith_spec, <- endswith_spec. apply envelope_shape. }
  rewrite Hshape. split; [apply decode_envelope_BadEnvelope | split; [|reflexivity]].
  unfold decode_build_link. split.
  - intros E [payload ->]. rewrite decode_envelope_framed in E.
    destruct (b64decode payload) as [[|]|bs]; cbn [bind] in E; try discriminate.
    exact (parse_never_BadEnvelope bs E).
  - intros H. rewrite decode_envelope_unframed by assumption. reflexivity.
Qed.




(** C5 (counterexample).  A sequence of 27 bytes that opens with the build
    link type is decoded, not refused as truncated. *)
Lemma short_build_link_is_decoded :
  List.length (T_BUILD :: repeat 0 26) = 27%nat /\
  (exists d, parse_decoded_bytes (T_BUILD :: repeat 0 26) = Return d) /\
  (exists d, decode_build_link (lit "[&CgAAAAAAAAAAAAAAAAAAAAAAAAAAAAAAAAAA]") = Return d) /\
  b64decode (lit "CgAAAAAAAAAAAAAAAAAAAAAAAAAAAAAAAAAA") = inr (T_BUILD :: repeat 0 26) /\
  (forall tag, exists d, parse_decoded_bytes (tag :: repeat 0 26) = Return d).
Proof.
  split; [reflexivity | split; [|split; [|split]]].
  - eexists. reflexivity.
  - eexists. reflexivity.
  - reflexivity.
  - intros tag. eexists. reflexivity.
Qed.

(** C5 (amended).  Whatever its leading byte, a byte sequence fails as too
    short, without any count of bytes, exactly when it has fewer than the
    three bytes the parse reads; every sequence of three bytes or more is
    decoded. *)
Theorem too_short_iff (tag : Z) (rest : bytes) :
  (parse_decoded_bytes (tag :: rest) = ReturnNone TooShort <->
   (List.length (tag :: rest) < 3)%nat) /\
  ((exists d, parse_decoded_bytes (tag :: rest) = Return d) <->
   (3 <= List.length (tag :: rest))%nat).
Proof.
  destruct rest as [|ver [|prof rest]]; cbn [List.length].
  - split; split; try reflexivity; try lia. intros [d H]. discriminate.
  - split; split; try reflexivity; try lia. intros [d H]. discriminate.
  - rewrite parse_three. split; split; try discriminate; try lia.
    intros _. eexists. reflexivity.
Qed.

(** C6 (counterexample).  A link whose payload opens with the byte 0xff,
    the unknown tag of the design document, is decoded. *)
Lemma unknown_tag_is_decoded :
  decode_build_link (lit "[&/wAA]") =
  Return {| link_type := lit "0xff";
            version := 0;
            profession_id_simplified := 0;
            raw_bytes_hex := lit "ff0000";
            note := lit "Decoding is complex and requires full GW2 build code spec." |}.
Proof. reflexivity. Qed.

(** C6 (amended).  The first byte is never compared with a known tag: every
    sequence of three bytes or more is decoded and reports that byte, in
    hexadecimal, as its link type.  The link [[&/w==]] does fail, because its
    payload of one byte is too short. *)
Theorem no_tag_dispatch (tag ver prof : Z) (rest : bytes) :
  parse_decoded_bytes (tag :: ver :: prof :: rest) =
    Return {| link_type := hex tag;
              version := ver;
              profession_id_simplified := prof;
              raw_bytes_hex := bytes_hex (tag :: ver :: prof :: rest);
              note := lit "Decoding is complex and requires full GW2 build code spec." |} /\
  decode_envelope (lit "[&/w==]") = Return [255] /\
  decode_build_link (lit "[&/w==]") = ReturnNone TooShort.
Proof. repeat split. Qed.

(** C7 (counterexample).  For the placeholder payload the profession
    reported is the byte at offset 2, which differs from the byte at
    offset 1. *)
Lemma profession_is_not_byte_1 :
  parse_decoded_bytes dummy_binary_data = Return dummy_decoded /\
  nth_error dummy_binary_data 1 <> Some (profession_id_simplified dummy_decoded).
Proof. split; [reflexivity | discriminate]. Qed.

(** C7 (amended).  For every byte sequence the parse accepts, the profession
    id of the result is the byte at offset 2, taken as it is, and the byte
    at offset 1 is reported as the version. *)
Theorem profession_is_byte_2 (decoded_bytes : bytes) (d : decoded) :
  parse_decoded_bytes decoded_bytes = Return d ->
  nth_error decoded_bytes 2 = Some (profession_id_simplified d) /\
  nth_error decoded_bytes 1 = Some (version d) /\
  (3 <= List.length decoded_bytes)%nat.
Proof.
  destruct decoded_bytes as [|tag [|ver [|prof rest]]]; try discriminate.
  rewrite parse_three. intros H. injection H as <-. cbn. repeat split. lia.
Qed.

Lemma profession_is_byte_2_witness :
  parse_decoded_bytes dummy_binary_data = Return dummy_decoded /\
  nth_error dummy_binary_data 2 = Some 2.
Proof.
  assert (H : parse_decoded_bytes dummy_binary_data = Return dummy_decoded) by reflexivity.
  split; [exact H|].
  exact (proj1 (profession_is_byte_2 dummy_binary_data dummy_decoded H)).
Defined.

(** C8.  On tier choices in 0..3, [pack_traits] gives
    [t0 | (t1 << 2) | (t2 << 4)], a value below 64, and unpacking it gives
    the choices back; on a byte, every unpacked tier is in 0..3 and packing
    the three tiers gives back its six low bits, the byte itself when bits 6
    and 7 are clear.  Packing 1, 2, 3 gives 0x39 and unpacking 0x39 gives
    1, 2, 3. *)
Theorem trait_packing_inverse (t0 t1 t2 byte : Z) :
  trait_ok t0 -> trait_ok t1 -> trait_ok t2 -> is_byte byte ->
  (pack_traits t0 t1 t2 = Z.lor t0 (Z.lor (Z.shiftl t1 2) (Z.shiftl t2 4)) /\
   pack_traits t0 t1 t2 = t0 + 4 * t1 + 16 * t2 /\
   unpack_traits (pack_traits t0 t1 t2) = (t0, t1, t2)) /\
  (unpack_tier byte 0 = Z.land (Z.shiftr byte 0) 3 /\
   unpack_tier byte 1 = Z.land (Z.shiftr byte 2) 3 /\
   unpack_tier byte 2 = Z.land (Z.shiftr byte 4) 3 /\
   trait_ok (unpack_tier byte 0) /\ trait_ok (unpack_tier byte 1) /\
   trait_ok (unpack_tier byte 2) /\
   pack_traits (unpack_tier byte 0) (unpack_tier byte 1) (unpack_tier byte 2)
     = Z.land byte 63 /\
   (byte < 64 ->
    pack_traits (unpack_tier byte 0) (unpack_tier byte 1) (unpack_tier byte 2) = byte)) /\
  pack_traits 1 2 3 = 0x39 /\
  unpack_traits 0x39 = (1, 2, 3).
Proof.
  intros H0 H1 H2 Hb. unfold trait_ok in H0, H1, H2.
  split; [|split; [|split; reflexivity]].
  - assert (C0 : t0 = 0 \/ t0 = 1 \/ t0 = 2 \/ t0 = 3) by lia.
    assert (C1 : t1 = 0 \/ t1 = 1 \/ t1 = 2 \/ t1 = 3) by lia.
    assert (C2 : t2 = 0 \/ t2 = 1 \/ t2 = 2 \/ t2 = 3) by lia.
    destruct C0 as [-> | [-> | [-> | ->]]];
      destruct C1 as [-> | [-> | [-> | ->]]];
      destruct C2 as [-> | [-> | [-> | ->]]]; repeat split.
  - pose (P := fun b =>
      (0 <=? unpack_tier b 0) && (unpack_tier b 0 <=? 3) &&
      (0 <=? unpack_tier b 1) && (unpack_tier b 1 <=? 3) &&
      (0 <=? unpack_tier b 2) && (unpack_tier b 2 <=? 3) &&
      (pack_traits (unpack_tier b 0) (unpack_tier b 1) (unpack_tier b 2) =? Z.land b 63) &&
      ((b <? 64) || negb (Z.land b 63 =? b)) && ((Z.land b 63 =? b) || negb (b <? 64))).
    assert (H : P byte = true)
      by (apply (below_sound 256); [vm_compute; reflexivity | exact Hb]).
    unfold P in H. repeat rewrite andb_true_iff in H.
    destruct H as [[[[[[[[A0 A1] A2] A3] A4] A5] A6] A7] A8].
    apply Z.leb_le in A0, A1, A2, A3, A4, A5. apply Z.eqb_eq in A6.
    unfold trait_ok. repeat split; try assumption.
    intros Hlt. rewrite A6.
    destruct (Z.eqb_spec (Z.land byte 63) byte) as [E|E]; [exact E|].
    destruct (Z.ltb_spec byte 64); [discriminate | lia].
Qed.

Lemma trait_packing_inverse_witness :
  trait_ok 1 /\ trait_ok 2 /\ trait_ok 3 /\ is_byte 0x39 /\
  unpack_traits (pack_traits 1 2 3) = (1, 2, 3) /\
  pack_traits (unpack_tier 0x39 0) (unpack_tier 0x39 1) (unpack_tier 0x39 2) = 0x39.
Proof.
  assert (H1 : trait_ok 1) by (unfold trait_ok; lia).
  assert (H2 : trait_ok 2) by (unfold trait_ok; lia).
  assert (H3 : trait_ok 3) by (unfold trait_ok; lia).
  assert (Hb : is_byte 0x39) by (unfold is_byte; lia).
  pose proof (trait_packing_inverse 1 2 3 0x39 H1 H2 H3 Hb)
    as [[_ [_ Hu]] [[_ [_ [_ [_ [_ [_ [_ Hp]]]]]]] _]].
  refine (conj H1 (conj H2 (conj H3 (conj Hb (conj Hu (Hp _)))))). lia.
Defined.

(** C9.  [encode_build_link] is constant: any two arguments, of any types,
    give the same string, which is the base64 text of the 15-byte placeholder
    between one opening and one closing bracket, with no ampersand. *)
Theorem encode_build_link_constant {A B : Type} (build_data1 : A) (build_data2 : B) :
  encode_build_link build_data1 = encode_build_link build_data2 /\
  encode_build_link build_data1 = lit "[CgECAQIDBAUGBwgJCgsM]" /\
  List.length dummy_binary_data = 15%nat /\
  b64encode dummy_binary_data = lit "CgECAQIDBAUGBwgJCgsM" /\
  ~ In 38%N (encode_build_link build_data1).
Proof.
  repeat split. cbv. intuition discriminate.
Qed.


(** ** Further facts on the scan *)

Section ScanFacts.

Lemma land255_is_byte (x : Z) : is_byte (Z.land x 255).
Proof.
  unfold is_byte. change 255 with (Z.ones 8). rewrite Z.land_ones by lia.
  apply Z.mod_pos_bound. lia.
Qed.

Lemma is_bytes_snoc (bs : bytes) (x : Z) :
  is_bytes bs -> is_bytes (bs ++ [Z.land x 255]).
Proof.
  intros H. apply Forall_app. split; [exact H|].
  constructor; [apply land255_is_byte | constructor].
Qed.

(** The scan only ever writes bytes. *)
Lemma a2b_loop_is_bytes (cs : bytes) :
  forall q l p out r,
    is_bytes out -> a2b_loop cs q l p out = inr r -> is_bytes r.
Proof.
  induction cs as [|c cs IH]; intros q l p out r Hout H; cbn [a2b_loop] in H.
  - destruct (q =? 0); [injection H as <-; exact Hout | discriminate].
  - destruct (c =? BASE64_PAD).
    + destruct (2 <=? q); [|eapply IH; eauto].
      destruct (4 <=? q + (p + 1)); [injection H as <-; exact Hout | eapply IH; eauto].
    + cbv zeta in H.
      destruct (64 <=? table_a2b_base64 c); [eapply IH; eauto|].
      destruct (q =? 0); [eapply IH; eauto|].
      destruct (q =? 1); [eapply IH; [|exact H]; apply is_bytes_snoc; exact Hout|].
      destruct (q =? 2); eapply IH; try exact H; apply is_bytes_snoc; exact Hout.
Qed.

(** The only exception of the scan is [binascii.Error]. *)
Lemma a2b_loop_error (cs : bytes) :
  forall q l p out e, a2b_loop cs q l p out = inl e -> e = binascii_Error.
Proof.
  induction cs as [|c cs IH]; intros q l p out e H; cbn [a2b_loop] in H.
  - destruct (q =? 0); [discriminate | injection H as <-; reflexivity].
  - destruct (c =? BASE64_PAD).
    + destruct (2 <=? q); [|eapply IH; eauto].
      destruct (4 <=? q + (p + 1)); [discriminate | eapply IH; eauto].
    + cbv zeta in H.
      destruct (64 <=? table_a2b_base64 c); [eapply IH; eauto|].
      destruct (q =? 0); [eapply IH; eauto|].
      destruct (q =? 1); [eapply IH; eauto|].
      destruct (q =? 2); eapply IH; eauto.
Qed.

(** Characters outside the alphabet, the pad apart, leave no trace. *)
Lemma a2b_loop_filter (cs : bytes) :
  forall q l p out,
    a2b_loop (filter significant cs) q l p out = a2b_loop cs q l p out.
Proof.
  induction cs as [|c cs IH]; intros q l p out; [reflexivity|].
  cbn [filter]. unfold significant at 1. unfold is_alphabet.
  destruct (Z.eqb_spec c BASE64_PAD) as [E|E].
  - cbn [orb a2b_loop]. subst c. rewrite Z.eqb_refl.
    destruct (2 <=? q); [destruct (4 <=? q + (p + 1)); [reflexivity|]|]; apply IH.
  - cbn [orb].
    destruct (Z.ltb_spec (table_a2b_base64 c) 64) as [Hv|Hv]; cbn [a2b_loop].
    + destruct (Z.eqb_spec c BASE64_PAD) as [E'|_]; [contradiction|]. cbv zeta.
      destruct (Z.leb_spec 64 (table_a2b_base64 c)); [lia|].
      destruct (q =? 0); [apply IH|].
      destruct (q =? 1); [apply IH|].
      destruct (q =? 2); apply IH.
    + destruct (Z.eqb_spec c BASE64_PAD) as [E'|_]; [contradiction|]. cbv zeta.
      destruct (Z.leb_spec 64 (table_a2b_base64 c)); [apply IH | lia].
Qed.

(** Between two groups the scan remembers nothing. *)
Lemma a2b_loop_between_groups (cs : bytes) :
  forall l p out, a2b_loop cs 0 l p out = a2b_loop cs 0 0 0 out.
Proof.
  induction cs as [|c cs IH]; intros l p out; [reflexivity|].
  cbn [a2b_loop]. destruct (c =? BASE64_PAD).
  - change (2 <=? 0) with false. cbv iota. rewrite IH. reflexivity.
  - cbv zeta. destruct (64 <=? table_a2b_base64 c); [rewrite IH; reflexivity|].
    reflexivity.
Qed.

Lemma whole_groups_step {A : Type} (a b c : A) (rest : list A) :
  (List.length (a :: b :: c :: rest) mod 3 = List.length rest mod 3)%nat.
Proof.
  cbn [List.length].
  replace (S (S (S (List.length rest)))) with (List.length rest + 1 * 3)%nat by lia.
  apply Nat.Div0.mod_add.
Qed.

(** The scan of an encoding followed by more text: after whole groups it
    goes on with the text, after a padded group it stops. *)
Lemma a2b_loop_b2a_base64_app (bs : bytes) :
  is_bytes bs ->
  forall tail leftchar pads bin_data,
    a2b_loop (b2a_base64 bs ++ tail) 0 leftchar pads bin_data =
    if (List.length bs mod 3 =? 0)%nat
    then a2b_loop tail 0 0 0 (bin_data ++ bs)
    else inr (bin_data ++ bs).
Proof.
  induction bs as [|b0|b0 b1|b0 b1 b2 rest IH] using by_threes; intros Hbs tail l p out.
  - cbn. rewrite app_nil_r. apply a2b_loop_between_groups.
  - apply Forall_inv in Hbs.
    cbn [b2a_base64 app]. do 2 (rewrite a2b_loop_b2a; cbv zeta; cbn [Z.eqb Pos.eqb]).
    rewrite sextet1_last.
    destruct (first_byte b0 0 Hbs) as [E _]; [unfold is_byte; lia|].
    fold (sextet0 b0). rewrite E. reflexivity.
  - pose proof (Forall_inv Hbs) as Hb0.
    pose proof (Forall_inv (Forall_inv_tail Hbs)) as Hb1.
    cbn [b2a_base64 app]. do 3 (rewrite a2b_loop_b2a; cbv zeta; cbn [Z.eqb Pos.eqb]).
    rewrite sextet2_last. fold (sextet0 b0) (sextet1 b0 b1).
    destruct (first_byte b0 b1 Hb0 Hb1) as [E0 E1]. rewrite E0, E1.
    destruct (second_byte b1 0 Hb1) as [E2 _]; [unfold is_byte; lia|].
    rewrite E2. cbn. rewrite <- app_assoc. reflexivity.
  - pose proof (Forall_inv Hbs) as Hb0.
    pose proof (Forall_inv (Forall_inv_tail Hbs)) as Hb1.
    pose proof (Forall_inv (Forall_inv_tail (Forall_inv_tail Hbs))) as Hb2.
    pose proof (Forall_inv_tail (Forall_inv_tail (Forall_inv_tail Hbs))) as Hrest.
    cbn [b2a_base64 app]. do 4 (rewrite a2b_loop_b2a; cbv zeta; cbn [Z.eqb Pos.eqb]).
    fold (sextet0 b0) (sextet1 b0 b1) (sextet2 b1 b2).
    destruct (first_byte b0 b1 Hb0 Hb1) as [E0 E1]. rewrite E0, E1.
    destruct (second_byte b1 b2 Hb1 Hb2) as [E2 E3]. rewrite E2, E3.
    rewrite (IH Hrest), whole_groups_step. rewrite <- !app_assoc. reflexivity.
Qed.

(** Over a stretch without [=], the bytes written so far, counted with the
    characters of the open group, are three for every four characters. *)
Lemma a2b_loop_body_length (body : bytes) :
  ~ In BASE64_PAD body ->
  forall tail quad_pos leftchar bin_data,
    0 <= quad_pos < 4 ->
    exists leftchar' bin_data',
      a2b_loop (body ++ tail) quad_pos leftchar 0 bin_data =
      a2b_loop tail ((quad_pos + data_characters body) mod 4) leftchar' 0 bin_data' /\
      Z.of_nat (List.length bin_data') =
      Z.of_nat (List.length bin_data)
      + 3 * (quad_pos + data_characters body) / 4 - 3 * quad_pos / 4.
Proof.
  induction body as [|c body IH]; intros Hpad tail q l out Hq.
  - exists l, out. cbn [app]. unfold data_characters. cbn [filter List.length Z.of_nat].
    rewrite Z.add_0_r, Z.mod_small by lia. split; [reflexivity | lia].
  - assert (Hc : c <> BASE64_PAD) by (intros E; apply Hpad; left; auto).
    assert (Hbody : ~ In BASE64_PAD body) by (intros E; apply Hpad; right; auto).
    rewrite data_characters_cons. cbn [app a2b_loop]. unfold is_alphabet.
    pose proof (Zle_0_nat (List.length (filter is_alphabet body))) as Hn.
    fold (data_characters body) in Hn.
    destruct (Z.eqb_spec c BASE64_PAD) as [E|_]; [contradiction|]. cbv zeta.
    destruct (Z.leb_spec 64 (table_a2b_base64 c)) as [Hv|Hv];
      destruct (Z.ltb_spec (table_a2b_base64 c) 64) as [Hv'|Hv']; try lia.
    + destruct (IH Hbody tail q l out Hq) as [l' [out' [E Hlen]]].
      exists l', out'. rewrite E. split; [reflexivity | exact Hlen].
    + assert (Hcases : q = 0 \/ q = 1 \/ q = 2 \/ q = 3) by lia.
      destruct Hcases as [-> | [-> | [-> | ->]]]; cbn [Z.eqb Pos.eqb];
        match goal with
        | |- context [a2b_loop (body ++ tail) ?q' ?l' 0 ?out'] =>
            destruct (IH Hbody tail q' l' out' ltac:(lia)) as [l'' [out'' [E Hlen]]];
            exists l'', out''; rewrite E; split;
            [ match goal with
              | |- a2b_loop _ ?x _ _ _ = a2b_loop _ ?y _ _ _ =>
                  replace y with x
                    by (Z.to_euclidean_division_equations; lia);
                  reflexivity
              end
            | rewrite Hlen; try rewrite length_app; cbn [List.length];
              Z.to_euclidean_division_equations; lia ]
        end.
Qed.

End ScanFacts.

(** ** Further properties of [decode_build_link] *)

Section DecodeFacts.

Lemma b64decode_ascii (s : str) :
  ascii_str s -> b64decode s = a2b_base64 (map Z.of_N s).
Proof.
  intros H. unfold b64decode.
  replace (forallb (fun c => N.ltb c 128) s) with true; [reflexivity|].
  symmetry. apply forallb_forall. intros c Hc. apply N.ltb_lt.
  unfold ascii_str in H. rewrite Forall_forall in H. auto.
Qed.

Lemma b64decode_not_ascii (s : str) :
  ~ ascii_str s -> b64decode s = inl ValueError.
Proof.
  intros H. unfold b64decode.
  destruct (forallb (fun c => N.ltb c 128) s) eqn:E; [|reflexivity].
  exfalso. apply H. apply Forall_forall. intros c Hc.
  rewrite forallb_forall in E. apply N.ltb_lt. auto.
Qed.

Lemma b64encode_ascii (b : bytes) : ascii_str (b64encode b).
Proof.
  unfold ascii_str, b64encode. apply Forall_forall. intros c Hc.
  apply in_map_iff in Hc. destruct Hc as [z [<- Hz]].
  pose proof (b2a_base64_ascii b) as H. rewrite Forall_forall in H.
  specialize (H z Hz). lia.
Qed.

Lemma b64encode_codes (b : bytes) : map Z.of_N (b64encode b) = b2a_base64 b.
Proof.
  unfold b64encode. rewrite map_map.
  rewrite (map_ext_in _ (fun z => z)); [apply map_id|].
  intros z Hz. pose proof (b2a_base64_ascii b) as H. rewrite Forall_forall in H.
  specialize (H z Hz). lia.
Qed.

Lemma b64decode_is_bytes (s : str) (bs : bytes) :
  b64decode s = inr bs -> is_bytes bs.
Proof.
  unfold b64decode. destruct (forallb _ s); [|discriminate].
  apply a2b_loop_is_bytes. constructor.
Qed.

Lemma parse_is_summary (decoded_bytes : bytes) :
  parse_decoded_bytes decoded_bytes = summary decoded_bytes.
Proof. destruct decoded_bytes as [|tag [|ver [|prof rest]]]; reflexivity. Qed.

Lemma decode_build_link_framed (payload : str) :
  decode_build_link (framed payload) =
  match b64decode payload with
  | inr decoded_bytes => summary decoded_bytes
  | inl binascii_Error => ReturnNone BadEncoding
  | inl ValueError => Raise ValueError
  end.
Proof.
  unfold decode_build_link, framed. rewrite decode_envelope_framed.
  destruct (b64decode payload) as [[|]|bs]; cbn [bind]; try reflexivity.
  apply parse_is_summary.
Qed.

Lemma framed_or_refused (link_string : str) :
  (exists payload, link_string = framed payload) \/
  decode_build_link link_string = ReturnNone BadEnvelope.
Proof.
  destruct (startswith (lit "[&") link_string) eqn:Es.
  - destruct (endswith (lit "]") link_string) eqn:Ee.
    + left. apply envelope_shape. auto.
    + right. unfold decode_build_link, decode_envelope. rewrite Es, Ee. reflexivity.
  - right. unfold decode_build_link, decode_envelope. rewrite Es. reflexivity.
Qed.

(** What a returned dictionary was made from. *)
Lemma returned_from (link_string : str) (d : decoded) :
  decode_build_link link_string = Return d ->
  exists payload tag ver prof rest,
    link_string = framed payload /\
    b64decode payload = inr (tag :: ver :: prof :: rest) /\
    decode_envelope link_string = Return (tag :: ver :: prof :: rest) /\
    d = {| link_type := hex tag;
           version := ver;
           profession_id_simplified := prof;
           raw_bytes_hex := bytes_hex (tag :: ver :: prof :: rest);
           note := lit "Decoding is complex and requires full GW2 build code spec." |}.
Proof.
  intros H. destruct (framed_or_refused link_string) as [[payload ->]|E].
  2:{ rewrite E in H. discriminate. }
  rewrite decode_build_link_framed in H.
  destruct (b64decode payload) as [[|]|bs] eqn:Eb; try discriminate.
  destruct bs as [|tag [|ver [|prof rest]]]; try discriminate.
  injection H as <-. exists payload, tag, ver, prof, rest.
  split; [reflexivity | split; [exact Eb | split; [|reflexivity]]].
  unfold framed. rewrite decode_envelope_framed, Eb. reflexivity.
Qed.

Lemma bytes_hex_length (bs : bytes) :
  List.length (bytes_hex bs) = (2 * List.length bs)%nat.
Proof.
  induction bs as [|b bs IH]; [reflexivity|].
  unfold bytes_hex in *. cbn [flat_map app List.length]. rewrite IH. lia.
Qed.

(** The two digits of [bytes.hex] tell the byte. *)
Lemma hex_pair_injective (a b : Z) :
  is_byte a -> is_byte b ->
  hexdigit (a / 16) = hexdigit (b / 16) ->
  hexdigit (a mod 16) = hexdigit (b mod 16) -> a = b.
Proof.
  intros Ha Hb H1 H2.
  pose (P := fun a b =>
    negb (N.eqb (hexdigit (a / 16)) (hexdigit (b / 16))
          && N.eqb (hexdigit (a mod 16)) (hexdigit (b mod 16)))
    || (a =? b)).
  assert (H : P a b = true)
    by (apply (below2_sound 256 256); [vm_compute; reflexivity | exact Ha | exact Hb]).
  unfold P in H. rewrite H1, H2, !N.eqb_refl in H. cbn in H.
  apply Z.eqb_eq. exact H.
Qed.

Lemma bytes_hex_injective (a : bytes) :
  forall b, is_bytes a -> is_bytes b -> bytes_hex a = bytes_hex b -> a = b.
Proof.
  induction a as [|x a IH]; intros [|y b] Ha Hb H; try reflexivity; try discriminate.
  unfold bytes_hex in H. cbn [flat_map app] in H. injection H as H1 H2 H3.
  f_equal.
  - apply hex_pair_injective; auto; [exact (Forall_inv Ha) | exact (Forall_inv Hb)].
  - apply IH; [exact (Forall_inv_tail Ha) | exact (Forall_inv_tail Hb) | exact H3].
Qed.

End DecodeFacts.

(** X1.  A link made of the markers around the base64 text of a byte
    sequence is decoded from exactly these bytes: a dictionary of bytes 0, 1
    and 2 and of the hexadecimal text of all of them when there are three or
    more, [None] on the empty-payload path for none, [None] on the too-short
    path for one or two. *)
Theorem canonical_link_summary (b : bytes) :
  is_bytes b ->
  decode_build_link (framed (b64encode b)) = summary b.
Proof.
  intros Hb. rewrite decode_build_link_framed, b64decode_b64encode by exact Hb.
  reflexivity.
Qed.

Lemma canonical_link_summary_witness :
  is_bytes [13; 6; 0; 0; 0] /\
  decode_build_link (lit "[&DQYAAAA=]") =
  Return {| link_type := lit "0xd";
            version := 6;
            profession_id_simplified := 0;
            raw_bytes_hex := lit "0d06000000";
            note := lit "Decoding is complex and requires full GW2 build code spec." |}.
Proof.
  assert (H : is_bytes [13; 6; 0; 0; 0]) by (repeat constructor; unfold is_byte; lia).
  split; [exact H|]. exact (canonical_link_summary [13; 6; 0; 0; 0] H).
Defined.

(** X2.  Whatever the link, the version and the profession id of a returned
    dictionary are bytes, its link type is [hex] of a byte, and its
    hexadecimal text has two characters for each of at least three bytes. *)
Theorem decoded_fields_are_bytes (link_string : str) (d : decoded) :
  decode_build_link link_string = Return d ->
  is_byte (version d) /\
  is_byte (profession_id_simplified d) /\
  (exists tag, is_byte tag /\ link_type d = hex tag) /\
  (exists n, (3 <= n)%nat /\ List.length (raw_bytes_hex d) = (2 * n)%nat).
Proof.
  intros H. destruct (returned_from _ _ H) as [payload [tag [ver [prof [rest [_ [Eb [_ ->]]]]]]]].
  pose proof (b64decode_is_bytes _ _ Eb) as Hbs.
  pose proof (Forall_inv Hbs) as Htag.
  pose proof (Forall_inv (Forall_inv_tail Hbs)) as Hver.
  pose proof (Forall_inv (Forall_inv_tail (Forall_inv_tail Hbs))) as Hprof.
  cbn [version profession_id_simplified link_type raw_bytes_hex].
  split; [exact Hver | split; [exact Hprof | split]].
  - exists tag. split; [exact Htag | reflexivity].
  - exists (List.length (tag :: ver :: prof :: rest)). split.
    + cbn [List.length]. lia.
    + apply bytes_hex_length.
Qed.

Lemma decoded_fields_are_bytes_witness :
  decode_build_link (lit "[&/wAA]") =
    Return {| link_type := lit "0xff";
              version := 0;
              profession_id_simplified := 0;
              raw_bytes_hex := lit "ff0000";
              note := lit "Decoding is complex and requires full GW2 build code spec." |} /\
  is_byte 0.
Proof.
  assert (H : decode_build_link (lit "[&/wAA]") =
    Return {| link_type := lit "0xff";
              version := 0;
              profession_id_simplified := 0;
              raw_bytes_hex := lit "ff0000";
              note := lit "Decoding is complex and requires full GW2 build code spec." |})
    by reflexivity.
  split; [exact H|]. exact (proj1 (decoded_fields_are_bytes _ _ H)).
Defined.

(** X3.  The dictionary keeps the whole payload: two links whose
    dictionaries have the same hexadecimal text were decoded to the same
    bytes and have the same dictionary. *)
Theorem summary_is_lossless (link1 link2 : str) (d1 d2 : decoded) :
  decode_build_link link1 = Return d1 ->
  decode_build_link link2 = Return d2 ->
  raw_bytes_hex d1 = raw_bytes_hex d2 ->
  decode_envelope link1 = decode_envelope link2 /\ d1 = d2.
Proof.
  intros H1 H2 Hraw.
  destruct (returned_from _ _ H1) as [p1 [t1 [v1 [f1 [r1 [_ [Eb1 [Ee1 ->]]]]]]]].
  destruct (returned_from _ _ H2) as [p2 [t2 [v2 [f2 [r2 [_ [Eb2 [Ee2 ->]]]]]]]].
  cbn [raw_bytes_hex] in Hraw.
  apply bytes_hex_injective in Hraw;
    [| exact (b64decode_is_bytes _ _ Eb1) | exact (b64decode_is_bytes _ _ Eb2)].
  rewrite Ee1, Ee2, Hraw. split; [reflexivity|].
  injection Hraw as -> -> -> ->. reflexivity.
Qed.

Lemma summary_is_lossless_witness :
  decode_envelope (lit "[&Cg EC]") = decode_envelope (lit "[&CgEC=]").
Proof.
  assert (H1 : decode_build_link (lit "[&Cg EC]") = summary [10; 1; 2]) by reflexivity.
  assert (H2 : decode_build_link (lit "[&CgEC=]") = summary [10; 1; 2]) by reflexivity.
  exact (proj1 (summary_is_lossless _ _ _ _ H1 H2 eq_refl)).
Defined.

(** X4.  In an ASCII payload only the alphabet and the pad count: taking
    every other character out (blanks, line ends, punctuation) changes
    nothing in what [decode_build_link] does. *)
Theorem insignificant_characters_ignored (payload : str) :
  ascii_str payload ->
  decode_build_link (framed payload) =
  decode_build_link (framed (filter (fun c => significant (Z.of_N c)) payload)).
Proof.
  intros H. rewrite !decode_build_link_framed.
  assert (H' : ascii_str (filter (fun c => significant (Z.of_N c)) payload)).
  { unfold ascii_str in *. rewrite Forall_forall in *. intros c Hc.
    apply filter_In in Hc. apply H, Hc. }
  rewrite (b64decode_ascii _ H), (b64decode_ascii _ H').
  unfold a2b_base64.
  replace (map Z.of_N (filter (fun c => significant (Z.of_N c)) payload))
    with (filter significant (map Z.of_N payload)).
  - rewrite a2b_loop_filter. reflexivity.
  - clear. induction payload as [|c payload IH]; [reflexivity|].
    cbn [map filter]. destruct (significant (Z.of_N c)); cbn [map]; rewrite IH; reflexivity.
Qed.

Lemma insignificant_characters_ignored_witness :
  ascii_str (lit "Cg E*C!") /\
  decode_build_link (lit "[&Cg E*C!]") = decode_build_link (lit "[&CgEC]").
Proof.
  assert (H : ascii_str (lit "Cg E*C!"))
    by (unfold ascii_str; repeat constructor).
  split; [exact H|]. exact (insignificant_characters_ignored (lit "Cg E*C!") H).
Defined.

(** X5.  After the padded last group of an encoding nothing is read: when
    the number of encoded bytes is not a multiple of three, any ASCII text
    put behind the encoding leaves the result of [decode_build_link] as it
    is. *)
Theorem text_after_padding_ignored (b : bytes) (trailer : str) :
  is_bytes b -> (List.length b mod 3 <> 0)%nat -> ascii_str trailer ->
  decode_envelope (framed (b64encode b ++ trailer)) = Return b /\
  decode_build_link (framed (b64encode b ++ trailer)) =
  decode_build_link (framed (b64encode b)).
Proof.
  intros Hb Hlen Ht.
  assert (E : b64decode (b64encode b ++ trailer) = inr b).
  { rewrite b64decode_ascii.
    - rewrite map_app, b64encode_codes. unfold a2b_base64.
      rewrite a2b_loop_b2a_base64_app by exact Hb.
      destruct (Nat.eqb_spec (List.length b mod 3) 0); [contradiction | reflexivity].
    - apply Forall_app. split; [apply b64encode_ascii | exact Ht]. }
  split.
  - unfold framed. rewrite decode_envelope_framed, E. reflexivity.
  - rewrite !decode_build_link_framed, E, b64decode_b64encode by exact Hb. reflexivity.
Qed.

Lemma text_after_padding_ignored_witness :
  is_bytes [13; 6; 0; 0; 0] /\ (List.length [13; 6; 0; 0; 0] mod 3 <> 0)%nat /\
  ascii_str (lit "AAAA") /\
  decode_envelope (lit "[&DQYAAAA=AAAA]") = Return [13; 6; 0; 0; 0].
Proof.
  assert (H1 : is_bytes [13; 6; 0; 0; 0]) by (repeat constructor; unfold is_byte; lia).
  assert (H2 : (List.length [13; 6; 0; 0; 0] mod 3 <> 0)%nat) by (cbn; lia).
  assert (H3 : ascii_str (lit "AAAA")) by (unfold ascii_str; repeat constructor).
  refine (conj H1 (conj H2 (conj H3 _))).
  exact (proj1 (text_after_padding_ignored [13; 6; 0; 0; 0] (lit "AAAA") H1 H2 H3)).
Defined.

(** X6.  Encodings put one after the other: when the first encodes a
    multiple of three bytes (so ends without padding), the envelope decodes
    to the bytes of the first followed by the bytes of the second. *)
Theorem concatenated_encodings (b1 b2 : bytes) :
  is_bytes b1 -> is_bytes b2 -> (List.length b1 mod 3 = 0)%nat ->
  decode_envelope (framed (b64encode b1 ++ b64encode b2)) = Return (b1 ++ b2).
Proof.
  intros H1 H2 Hlen. unfold framed. rewrite decode_envelope_framed.
  rewrite b64decode_ascii
    by (apply Forall_app; split; apply b64encode_ascii).
  rewrite map_app, !b64encode_codes. unfold a2b_base64.
  rewrite a2b_loop_b2a_base64_app by exact H1.
  rewrite Hlen. cbn [Nat.eqb app].
  rewrite a2b_loop_b2a_base64 by exact H2. reflexivity.
Qed.

Lemma concatenated_encodings_witness :
  is_bytes [10; 1; 2] /\ is_bytes [255] /\ (List.length [10; 1; 2] mod 3 = 0)%nat /\
  decode_envelope (lit "[&CgEC/w==]") = Return [10; 1; 2; 255].
Proof.
  assert (H1 : is_bytes [10; 1; 2]) by (repeat constructor; unfold is_byte; lia).
  assert (H2 : is_bytes [255]) by (repeat constructor; unfold is_byte; lia).
  assert (H3 : (List.length [10; 1; 2] mod 3 = 0)%nat) by reflexivity.
  refine (conj H1 (conj H2 (conj H3 _))).
  exact (concatenated_encodings [10; 1; 2] [255] H1 H2 H3).
Defined.

(** X7.  For an ASCII payload made of a body without [=] and [k] pads, the
    number [n] of alphabet characters of the body decides what
    [decode_build_link] does: a base64 error for an unfinished group, the
    empty-payload [None] for [n = 0], the too-short [None] for two or three
    characters closed by their pads, a dictionary from four characters on;
    and when the envelope decodes, it gives [3 * n / 4] bytes. *)
Theorem outcome_by_data_characters (body : str) (k : nat) :
  ascii_str body -> ~ In pad_char body ->
  let text := framed (body ++ repeat pad_char k) in
  let n := data_characters (map Z.of_N body) in
  (decode_build_link text = ReturnNone BadEncoding <-> unfinished_group n k) /\
  (decode_build_link text = ReturnNone EmptyPayload <-> n = 0) /\
  (decode_build_link text = ReturnNone TooShort <->
     (n = 2 /\ (2 <= k)%nat) \/ (n = 3 /\ (1 <= k)%nat)) /\
  ((exists d, decode_build_link text = Return d) <->
     4 <= n /\ ~ unfinished_group n k) /\
  (forall decoded_bytes,
     decode_envelope text = Return decoded_bytes ->
     Z.of_nat (List.length decoded_bytes) = 3 * n / 4).
Proof.
  intros Hascii Hpad text n. subst text.
  assert (Hall : ascii_str (body ++ repeat pad_char k)).
  { apply Forall_app. split; [exact Hascii|].
    apply Forall_forall. intros c Hc. apply repeat_spec in Hc. subst c. reflexivity. }
  assert (Hpad' : ~ In BASE64_PAD (map Z.of_N body)).
  { intros H. apply in_map_iff in H. destruct H as [c [Hc Hin]].
    apply Hpad. replace pad_char with c; [assumption|].
    unfold BASE64_PAD in Hc. unfold pad_char. lia. }
  assert (Hn : 0 <= n) by (unfold n, data_characters; lia).
  pose proof (Z.mod_pos_bound n 4 ltac:(lia)) as Hmod.
  assert (Hscan : (unfinished_group n k /\
                   b64decode (body ++ repeat pad_char k) = inl binascii_Error) \/
                  (~ unfinished_group n k /\
                   exists bs, b64decode (body ++ repeat pad_char k) = inr bs /\
                              Z.of_nat (List.length bs) = 3 * n / 4)).
  { rewrite (b64decode_ascii _ Hall), map_app, map_repeat.
    change (Z.of_N pad_char) with BASE64_PAD. unfold a2b_base64.
    destruct (a2b_loop_body_length (map Z.of_N body) Hpad' (repeat BASE64_PAD k) 0 0 []
                ltac:(lia)) as [l' [out' [E Hlen]]].
    rewrite E, Z.add_0_l. fold n. fold n in Hlen.
    rewrite a2b_loop_pads by lia. rewrite Z.add_0_r.
    cbn [List.length Z.of_nat] in Hlen.
    rewrite !Z.add_0_l in Hlen. change (3 * 0 / 4) with 0 in Hlen.
    rewrite Z.sub_0_r in Hlen.
    unfold unfinished_group.
    destruct (Z.eqb_spec (n mod 4) 0) as [E0|E0]; cbn [orb].
    - right. split; [lia|]. exists out'. split; [reflexivity | lia].
    - destruct (Z.leb_spec 2 (n mod 4)); cbn [andb].
      + destruct (Z.leb_spec 4 (n mod 4 + Z.of_nat k)).
        * right. split; [lia|]. exists out'. split; [reflexivity | lia].
        * left. split; [lia | reflexivity].
      + left. split; [lia | reflexivity]. }
  assert (Henv : decode_envelope (framed (body ++ repeat pad_char k)) =
                 match b64decode (body ++ repeat pad_char k) with
                 | inr decoded_bytes => Return decoded_bytes
                 | inl binascii_Error => ReturnNone BadEncoding
                 | inl ValueError => Raise ValueError
                 end) by apply decode_envelope_framed.
  rewrite Henv, !decode_build_link_framed. clear Henv.
  destruct Hscan as [[U E] | [U [bs [E Hlen]]]]; rewrite E; clear E.
  - split; [|split; [|split; [|split]]].
    all: try (split; intros H).
    all: try (intros bs' H).
    all: try discriminate H.
    all: try (match type of H with ex _ => destruct H as [d H]; discriminate H end).
    all: try reflexivity.
    all: try exact U.
    all: exfalso; unfold unfinished_group in *; Z.to_euclidean_division_equations; lia.
  - destruct bs as [|tag [|ver [|prof rest]]]; cbn [summary List.length] in *.
    all: split; [|split; [|split; [|split]]].
    all: try (split; intros H).
    all: try (intros bs' H; injection H as <-; cbn [List.length]).
    all: try discriminate H.
    all: try (match type of H with ex _ => destruct H as [d H]; discriminate H end).
    all: try reflexivity.
    all: try (eexists; reflexivity).
    all: try (exfalso; unfold unfinished_group in *; Z.to_euclidean_division_equations; lia).
    all: unfold unfinished_group in *; Z.to_euclidean_division_equations; lia.
Qed.

Lemma outcome_by_data_characters_witness :
  ascii_str (lit "/w") /\ ~ In pad_char (lit "/w") /\
  decode_build_link (lit "[&/w==]") = ReturnNone TooShort.
Proof.
  assert (H1 : ascii_str (lit "/w")) by (unfold ascii_str; repeat constructor).
  assert (H2 : ~ In pad_char (lit "/w")) by (simpl; intros [H|[H|[]]]; discriminate).
  refine (conj H1 (conj H2 _)).
  apply (proj2 (proj1 (proj2 (proj2 (outcome_by_data_characters (lit "/w") 2 H1 H2))))).
  left. split; [reflexivity | lia].
Defined.

(** X8.  [decode_build_link] lets an exception escape in one case only: the
    text has both markers and its payload holds a character that is not
    ASCII; the exception is then the [ValueError] of [b64decode], which the
    handler for [binascii.Error] does not catch. *)
Theorem raises_iff_not_ascii (link_string : str) (e : exn) :
  decode_build_link link_string = Raise e <->
  e = ValueError /\
  exists payload, link_string = framed payload /\ ~ ascii_str payload.
Proof.
  split.
  - intros H. destruct (framed_or_refused link_string) as [[payload ->]|E].
    2:{ rewrite E in H. discriminate. }
    rewrite decode_build_link_framed in H.
    destruct (b64decode payload) as [[|]|bs] eqn:Eb.
    + discriminate.
    + injection H as <-. split; [reflexivity|]. exists payload. split; [reflexivity|].
      intros Ha. rewrite (b64decode_ascii _ Ha) in Eb.
      apply a2b_loop_error in Eb. discriminate.
    + destruct bs as [|tag [|ver [|prof rest]]]; discriminate.
  - intros [-> [payload [-> Ha]]].
    rewrite decode_build_link_framed, (b64decode_not_ascii _ Ha). reflexivity.
Qed.

Lemma raises_iff_not_ascii_witness :
  ~ ascii_str [233%N] /\
  decode_build_link (lit "[&" ++ [233%N] ++ lit "]") = Raise ValueError.
Proof.
  assert (H : ~ ascii_str [233%N]).
  { intros Ha. apply Forall_inv in Ha. vm_compute in Ha. discriminate Ha. }
  split; [exact H|].
  apply (proj2 (raises_iff_not_ascii _ ValueError)).
  split; [reflexivity|]. exists [233%N]. split; [reflexivity | exact H].
Defined.

(** ** The saved builds and the menus *)

Section PathFacts.

Lemma slice_nonneg {A : Type} (s : list A) (i j : nat) :
  (i <= j <= List.length s)%nat ->
  slice s (Z.of_nat i) (Z.of_nat j) = firstn (j - i) (skipn i s).
Proof.
  intros H. unfold slice, adjust_index.
  destruct (Z.ltb_spec (Z.of_nat i) 0); [lia|].
  destruct (Z.ltb_spec (Z.of_nat j) 0); [lia|].
  rewrite !Z.min_l by lia. rewrite Nat2Z.id.
  replace (Z.to_nat (Z.of_nat j - Z.of_nat i)) with (j - i)%nat by lia.
  reflexivity.
Qed.

Lemma slice_at {A : Type} (pre : list A) (c : A) (t : list A) :
  slice (pre ++ c :: t) (Z.of_nat (List.length pre)) (Z.of_nat (List.length pre) + 1) = [c].
Proof.
  replace (Z.of_nat (List.length pre) + 1) with (Z.of_nat (List.length pre + 1)) by lia.
  rewrite slice_nonneg by (rewrite length_app; cbn [List.length]; lia).
  rewrite skipn_app, skipn_all, Nat.sub_diag. cbn [app skipn].
  replace (List.length pre + 1 - List.length pre)%nat with 1%nat by lia.
  reflexivity.
Qed.

Lemma rfind_from_app (s t : str) (ch : N) :
  forall i last,
    rfind_from (s ++ t) ch i last =
    rfind_from t ch (i + Z.of_nat (List.length s)) (rfind_from s ch i last).
Proof.
  induction s as [|c s IH]; intros i last.
  - cbn. rewrite Z.add_0_r. reflexivity.
  - cbn [app rfind_from List.length]. rewrite IH. f_equal. lia.
Qed.

Lemma rfind_from_notin (s : str) (ch : N) :
  ~ In ch s -> forall i last, rfind_from s ch i last = last.
Proof.
  induction s as [|c s IH]; intros H i last; [reflexivity|].
  cbn [rfind_from]. destruct (N.eqb_spec c ch) as [E|_].
  - exfalso. apply H. left. exact E.
  - apply IH. intros Hin. apply H. right. exact Hin.
Qed.

(** The loop over the leading dots finds a character of the stem exactly
    when the stem has one that is not a dot. *)
Lemma has_stem_spec (rest : str) :
  forall pre suffix,
    has_stem (List.length rest) (pre ++ rest ++ suffix)
             (Z.of_nat (List.length pre))
             (Z.of_nat (List.length pre + List.length rest))
    = existsb not_dot rest.
Proof.
  induction rest as [|c rest IH]; intros pre suffix; [reflexivity|].
  cbn [has_stem List.length existsb].
  destruct (Z.ltb_spec (Z.of_nat (List.length pre))
                       (Z.of_nat (List.length pre + S (List.length rest)))); [|lia].
  cbn [app]. rewrite slice_at. cbn [str_eqb]. rewrite andb_true_r.
  fold (not_dot c). destruct (not_dot c); [reflexivity|]. cbn [orb].
  specialize (IH (pre ++ [c]) suffix).
  rewrite <- app_assoc in IH. cbn [app] in IH.
  rewrite length_app in IH. cbn [List.length] in IH.
  replace (Z.of_nat (List.length pre) + 1) with (Z.of_nat (List.length pre + 1)) by lia.
  replace (List.length pre + S (List.length rest))%nat
    with (List.length pre + 1 + List.length rest)%nat by lia.
  exact IH.
Qed.

Lemma rfind_build_file_sep (build_name : str) :
  ~ In sep build_name -> rfind (build_file build_name) sep = -1.
Proof.
  intros Hsep. unfold rfind, build_file. rewrite rfind_from_app.
  rewrite (rfind_from_notin build_name sep Hsep).
  apply rfind_from_notin. unfold sep. cbn. intuition discriminate.
Qed.

Lemma rfind_build_file_dot (build_name : str) :
  rfind (build_file build_name) extsep = Z.of_nat (List.length build_name).
Proof.
  unfold rfind, build_file. rewrite rfind_from_app.
  change (lit ".json") with ([46%N] ++ [106; 115; 111; 110]%N).
  rewrite rfind_from_app. rewrite (rfind_from_notin [106; 115; 111; 110]%N).
  - cbn [rfind_from]. unfold extsep. rewrite N.eqb_refl. apply Z.add_0_l.
  - unfold extsep. cbn. intuition discriminate.
Qed.

(** [os.path.splitext] on the file name of a build whose name has no
    slash: the name and [.json], unless the name is made of dots only (or
    empty), in which case nothing is split off. *)
Lemma splitext_build_file (build_name : str) :
  ~ In sep build_name ->
  splitext (build_file build_name) =
  if existsb not_dot build_name
  then (build_name, lit ".json")
  else (build_file build_name, []).
Proof.
  intros Hsep. unfold splitext.
  rewrite (rfind_build_file_sep build_name Hsep), rfind_build_file_dot.
  unfold build_file. change (lit ".json") with [46; 106; 115; 111; 110]%N.
  destruct (Z.ltb_spec (-1) (Z.of_nat (List.length build_name))); [|lia].
  cbn [andb]. change (-1 + 1) with 0. rewrite Z.sub_0_r, Nat2Z.id.
  pose proof (has_stem_spec build_name [] [46; 106; 115; 111; 110]%N) as Hs.
  cbn [app List.length Nat.add Z.of_nat] in Hs. rewrite Hs.
  destruct (existsb not_dot build_name); [|reflexivity].
  f_equal.
  - change 0 with (Z.of_nat 0).
    rewrite slice_nonneg by (rewrite length_app; lia).
    cbn [skipn]. rewrite Nat.sub_0_r, firstn_app, Nat.sub_diag, firstn_all.
    cbn [firstn]. apply app_nil_r.
  - rewrite slice_nonneg by (rewrite length_app; lia).
    rewrite skipn_app, skipn_all, Nat.sub_diag. cbn [app skipn].
    rewrite length_app. apply firstn_all2. cbn [List.length]. lia.
Qed.

Lemma all_dots (s : str) :
  existsb not_dot s = false -> s = repeat extsep (List.length s).
Proof.
  induction s as [|c s IH]; [reflexivity|].
  cbn [existsb List.length repeat]. intros H. apply orb_false_iff in H.
  destruct H as [Hc Hs]. unfold not_dot in Hc. apply negb_false_iff, N.eqb_eq in Hc.
  rewrite Hc, <- (IH Hs). reflexivity.
Qed.

Lemma existsb_not_dot_repeat (k : nat) : existsb not_dot (repeat extsep k) = false.
Proof. induction k as [|k IH]; [reflexivity|]. cbn [repeat existsb]. rewrite IH. reflexivity. Qed.

Lemma list_saved_builds_map (listing : list str) :
  list_saved_builds listing =
  map (fun f => fst (splitext f)) (filter (endswith (lit ".json")) listing).
Proof.
  unfold list_saved_builds.
  destruct (filter (endswith (lit ".json")) listing); reflexivity.
Qed.

End PathFacts.

(** X9.  On a directory listing whose entries hold no slash,
    [list_saved_builds] returns a name in two cases only: the listing has
    the file [name.json] of that name and the name has a character other than
    the dot; or the name is itself an entry made of dots followed by [.json],
    which is returned unstripped (so that [load_build], which appends
    [.json] again, does not find it). *)
Theorem listed_names (listing : list str) (name : str) :
  (forall f, In f listing -> ~ In sep f) ->
  (In name (list_saved_builds listing) <->
   (In (build_file name) listing /\ exists c, In c name /\ c <> extsep) \/
   (In name listing /\ exists k, name = build_file (repeat extsep k))).
Proof.
  intros Hsep. rewrite list_saved_builds_map, in_map_iff. split.
  - intros [f [Hn Hf]]. apply filter_In in Hf. destruct Hf as [Hin Hend].
    apply endswith_spec in Hend. destruct Hend as [stem ->].
    fold (build_file stem) in *.
    assert (Hs : ~ In sep stem).
    { intros H. apply (Hsep _ Hin). unfold build_file. apply in_or_app. left. exact H. }
    rewrite (splitext_build_file stem Hs) in Hn.
    destruct (existsb not_dot stem) eqn:E; cbn [fst] in Hn; subst name.
    + left. split; [exact Hin|].
      apply existsb_exists in E. destruct E as [c [Hc Hnd]].
      exists c. split; [exact Hc|]. unfold not_dot in Hnd.
      apply negb_true_iff, N.eqb_neq in Hnd. exact Hnd.
    + right. split; [exact Hin|]. exists (List.length stem).
      rewrite <- (all_dots stem E). reflexivity.
  - intros [[Hin [c [Hc Hnd]]] | [Hin [k ->]]].
    + exists (build_file name). split.
      * assert (Hs : ~ In sep name).
        { intros H. apply (Hsep _ Hin). unfold build_file. apply in_or_app. left. exact H. }
        rewrite (splitext_build_file name Hs).
        replace (existsb not_dot name) with true; [reflexivity|].
        symmetry. apply existsb_exists. exists c. split; [exact Hc|].
        unfold not_dot. apply negb_true_iff, N.eqb_neq. exact Hnd.
      * apply filter_In. split; [exact Hin|].
        apply endswith_spec. exists name. reflexivity.
    + exists (build_file (repeat extsep k)). split.
      * assert (Hs : ~ In sep (repeat extsep k)).
        { intros H. apply repeat_spec in H. discriminate. }
        rewrite (splitext_build_file _ Hs), existsb_not_dot_repeat. reflexivity.
      * apply filter_In. split; [exact Hin|].
        apply endswith_spec. exists (repeat extsep k). reflexivity.
Qed.

Lemma listed_names_witness :
  (forall f, In f (map lit ["b.json"; "notes.txt"; ".json"]%string) -> ~ In sep f) /\
  In (lit "b") (list_saved_builds (map lit ["b.json"; "notes.txt"; ".json"]%string)) /\
  In (lit ".json") (list_saved_builds (map lit ["b.json"; "notes.txt"; ".json"]%string)).
Proof.
  assert (H : forall f, In f (map lit ["b.json"; "notes.txt"; ".json"]%string) -> ~ In sep f).
  { intros f [<-|[<-|[<-|[]]]] Hin; cbn in Hin;
      repeat (destruct Hin as [Hin|Hin]; [discriminate Hin|]); exact Hin. }
  refine (conj H (conj _ _)).
  - apply (proj2 (listed_names _ (lit "b") H)). left. split.
    + left. reflexivity.
    + exists 98%N. split; [left; reflexivity | discriminate].
  - apply (proj2 (listed_names _ (lit ".json") H)). right. split.
    + right. right. left. reflexivity.
    + exists 0%nat. reflexivity.
Defined.

(** X10.  In the menus, which number their options from 1, a number from
    1 to the count selects the option shown with it; but 0 and the negative
    numbers down to one minus the count are accepted as well and select from
    the end of the list (0 the last option); only larger or smaller numbers
    are refused as invalid input. *)
Theorem menu_choice_range {A : Type} (options : list A) (number : Z) :
  let count := Z.of_nat (List.length options) in
  (menu_choice options number = None <-> number <= - count \/ count < number) /\
  (1 <= number <= count ->
   menu_choice options number = nth_error options (Z.to_nat (number - 1))) /\
  (- count < number <= 0 ->
   menu_choice options number = nth_error options (Z.to_nat (count + number - 1))) /\
  (forall front x, options = front ++ [x] -> menu_choice options 0 = Some x).
Proof.
  intros count. unfold menu_choice, getitem. fold count.
  split; [|split; [|split]].
  - destruct (Z.ltb_spec (number - 1) 0) as [Hneg|Hpos].
    + destruct (Z.ltb_spec (number - 1 + count) 0) as [H1|H1]; cbn [orb].
      * split; [lia | reflexivity].
      * destruct (Z.leb_spec count (number - 1 + count)) as [H2|H2]; [lia|].
        rewrite nth_error_None. subst count. lia.
    + destruct (Z.ltb_spec (number - 1) 0) as [H1|H1]; [lia|]. cbn [orb].
      destruct (Z.leb_spec count (number - 1)) as [H2|H2].
      * split; [lia | reflexivity].
      * rewrite nth_error_None. subst count. lia.
  - intros H.
    destruct (Z.ltb_spec (number - 1) 0) as [Hneg|Hpos]; [lia|].
    destruct (Z.ltb_spec (number - 1) 0) as [H1|H1]; [lia|]. cbn [orb].
    destruct (Z.leb_spec count (number - 1)) as [H2|H2]; [lia | reflexivity].
  - intros H.
    destruct (Z.ltb_spec (number - 1) 0) as [Hneg|Hpos]; [|lia].
    destruct (Z.ltb_spec (number - 1 + count) 0) as [H1|H1]; [lia|]. cbn [orb].
    destruct (Z.leb_spec count (number - 1 + count)) as [H2|H2]; [lia|].
    f_equal. lia.
  - intros front x ->. subst count. rewrite length_app. cbn [List.length].
    change (0 - 1 <? 0) with true. cbv iota.
    destruct (Z.ltb_spec (0 - 1 + Z.of_nat (List.length front + 1)) 0) as [H1|H1]; [lia|].
    cbn [orb].
    destruct (Z.leb_spec (Z.of_nat (List.length front + 1))
                         (0 - 1 + Z.of_nat (List.length front + 1))) as [H2|H2]; [lia|].
    replace (Z.to_nat (0 - 1 + Z.of_nat (List.length front + 1)))
      with (List.length front) by lia.
    rewrite nth_error_app2, Nat.sub_diag by lia. reflexivity.
Qed.

Lemma menu_choice_range_witness :
  - Z.of_nat (List.length [10; 20; 30]) < -1 <= 0 /\
  menu_choice [10; 20; 30] (-1) = Some 20.
Proof.
  assert (H : - Z.of_nat (List.length [10; 20; 30]) < -1 <= 0) by (cbn; lia).
  split; [exact H|].
  exact (proj1 (proj2 (proj2 (menu_choice_range [10; 20; 30] (-1)))) H).
Defined.

(** ** The lenient reading, counted *)

Section Consumed.

Lemma pad_test (c : N) : (Z.of_N c =? BASE64_PAD) = N.eqb c pad_char.
Proof.
  unfold BASE64_PAD, pad_char.
  destruct (Z.eqb_spec (Z.of_N c) 61); destruct (N.eqb_spec c 61); try reflexivity; lia.
Qed.

Lemma alphabet_test (c : N) :
  (64 <=? table_a2b_base64 (Z.of_N c)) = negb (base64_char c).
Proof.
  unfold table_a2b_base64, base64_char.
  destruct (N.leb_spec 65 c); destruct (N.leb_spec c 90);
    destruct (Z.leb_spec 65 (Z.of_N c)); destruct (Z.leb_spec (Z.of_N c) 90);
    try lia; cbn [andb orb negb];
    try (destruct (Z.leb_spec 64 (Z.of_N c - 65)); [lia | reflexivity]).
  all: destruct (N.leb_spec 97 c); destruct (N.leb_spec c 122);
    destruct (Z.leb_spec 97 (Z.of_N c)); destruct (Z.leb_spec (Z.of_N c) 122);
    try lia; cbn [andb orb negb];
    try (destruct (Z.leb_spec 64 (Z.of_N c - 71)); [lia | reflexivity]).
  all: destruct (N.leb_spec 48 c); destruct (N.leb_spec c 57);
    destruct (Z.leb_spec 48 (Z.of_N c)); destruct (Z.leb_spec (Z.of_N c) 57);
    try lia; cbn [andb orb negb];
    try (destruct (Z.leb_spec 64 (Z.of_N c + 4)); [lia | reflexivity]).
  all: destruct (N.eqb_spec c 43); destruct (Z.eqb_spec (Z.of_N c) 43);
    try lia; cbn [andb orb negb]; try reflexivity.
  all: destruct (N.eqb_spec c 47); destruct (Z.eqb_spec (Z.of_N c) 47);
    try lia; reflexivity.
Qed.

Lemma data_count_snoc (read : str) (c : N) :
  data_count (read ++ [c]) = data_count read + (if base64_char c then 1 else 0).
Proof.
  unfold data_count. rewrite filter_app, length_app. cbn [filter].
  destruct (base64_char c); cbn [List.length]; lia.
Qed.

Lemma ends_on_pad_snoc (read : str) (c : N) :
  ends_on_pad (read ++ [c]) =
  if counted c then N.eqb c pad_char else ends_on_pad read.
Proof.
  unfold ends_on_pad. rewrite filter_app. cbn [filter].
  destruct (counted c).
  - rewrite rev_app_distr. reflexivity.
  - rewrite app_nil_r. reflexivity.
Qed.

Lemma consumed_from_pad (read rest : str) :
  consumed_from read (pad_char :: rest) =
  if closes_group read then Some (data_count read)
  else consumed_from (read ++ [pad_char]) rest.
Proof.
  unfold consumed_from. cbn [pad_prefixes]. rewrite N.eqb_refl. cbn [app find].
  destruct (closes_group read); [reflexivity|].
  rewrite <- app_assoc. reflexivity.
Qed.

Lemma consumed_from_other (read rest : str) (c : N) :
  c <> pad_char ->
  consumed_from read (c :: rest) = consumed_from (read ++ [c]) rest.
Proof.
  intros H. unfold consumed_from. cbn [pad_prefixes].
  destruct (N.eqb_spec c pad_char) as [E|_]; [contradiction|].
  cbn [app]. rewrite <- app_assoc. reflexivity.
Qed.

(** The scan, started where [read] leaves it, agrees with the count. *)
Lemma scan_agrees (rest : str) :
  forall read quad_pos leftchar pads bin_data,
    quad_pos = data_count read mod 4 ->
    0 <= pads ->
    (quad_pos = 2 -> (1 <= pads <-> ends_on_pad read = true)) ->
    Z.of_nat (List.length bin_data) = 3 * data_count read / 4 ->
    agrees (a2b_loop (map Z.of_N rest) quad_pos leftchar pads bin_data)
           (consumed_from read rest).
Proof.
  induction rest as [|c rest IH]; intros read q l p out Hq Hp Hpad Hlen.
  - cbn [map a2b_loop]. unfold consumed_from. cbn [pad_prefixes find].
    rewrite app_nil_r, <- Hq.
    destruct (q =? 0); [exact Hlen | reflexivity].
  - pose proof (Z.mod_pos_bound (data_count read) 4 ltac:(lia)) as Hrange.
    rewrite <- Hq in Hrange.
    assert (Hd : 0 <= data_count read) by (unfold data_count; lia).
    cbn [map a2b_loop]. rewrite pad_test.
    destruct (N.eqb_spec c pad_char) as [->|Hc].
    + rewrite consumed_from_pad. unfold closes_group. rewrite <- Hq.
      assert (Hsame : data_count (read ++ [pad_char]) = data_count read)
        by (rewrite data_count_snoc; change (base64_char pad_char) with false;
            cbv iota; lia).
      assert (Hends : ends_on_pad (read ++ [pad_char]) = true)
        by (rewrite ends_on_pad_snoc; reflexivity).
      destruct (Z.leb_spec 2 q) as [H2|H2].
      * destruct (Z.eqb_spec q 3) as [H3|H3]; cbn [orb].
        -- destruct (Z.leb_spec 4 (q + (p + 1))); [exact Hlen | lia].
        -- assert (E2 : q = 2) by lia. rewrite E2. cbn [Z.eqb Pos.eqb andb].
           specialize (Hpad E2).
           destruct (ends_on_pad read) eqn:Ee.
           ++ destruct (Z.leb_spec 4 (2 + (p + 1))); [exact Hlen|].
              assert (1 <= p) by (apply Hpad; reflexivity). lia.
           ++ destruct (Z.leb_spec 4 (2 + (p + 1))) as [H4|H4].
              ** assert (Habs : false = true) by (apply Hpad; lia).
                 discriminate Habs.
              ** apply IH; rewrite ?Hsame; try assumption; try lia.
                 intros _. rewrite Hends. split; [reflexivity | lia].
      * destruct (Z.eqb_spec q 3); [lia|]. destruct (Z.eqb_spec q 2); [lia|].
        cbn [orb andb].
        apply IH; rewrite ?Hsame; try assumption; try lia.
    + rewrite (consumed_from_other _ _ _ Hc). cbv zeta. rewrite alphabet_test.
      pose proof (data_count_snoc read c) as Hcount.
      pose proof (ends_on_pad_snoc read c) as Hends.
      unfold counted in Hends.
      destruct (base64_char c) eqn:Eb; cbn [negb orb] in *.
      * destruct (N.eqb_spec c pad_char) as [E|_]; [contradiction|].
        assert (Hcases : q = 0 \/ q = 1 \/ q = 2 \/ q = 3) by lia.
        destruct Hcases as [E | [E | [E | E]]]; rewrite E; cbn [Z.eqb Pos.eqb];
          apply IH; rewrite ?Hcount, ?Hends, ?length_app; cbn [List.length];
          try lia;
          try (intros _; split; [lia | discriminate]);
          try (Z.to_euclidean_division_equations; lia).
      * destruct (N.eqb_spec c pad_char) as [E|_]; [contradiction|].
        apply IH; rewrite ?Hcount, ?Hends, ?Z.add_0_r; assumption.
Qed.

(** [b64decode] on an ASCII payload against the count. *)
Lemma b64decode_agrees (payload : str) :
  ascii_str payload -> agrees (b64decode payload) (consumed payload).
Proof.
  intros Ha. rewrite (b64decode_ascii _ Ha). unfold a2b_base64, consumed.
  apply scan_agrees; try reflexivity; lia.
Qed.

End Consumed.

(** C10 (counterexample).  Two payloads that are not base64 in the strict
    sense, one with a character outside the alphabet and one with a pad too
    many, are decoded to three bytes and a dictionary is returned. *)
Lemma lenient_payloads_are_decoded :
  valid_base64 (lit "A*AAA") = false /\
  decode_build_link (lit "[&A*AAA]") = summary [0; 0; 0] /\
  valid_base64 (lit "AAAA=") = false /\
  decode_build_link (lit "[&AAAA=]") = summary [0; 0; 0] /\
  exists d, summary [0; 0; 0] = Return d.
Proof.
  repeat split. eexists. reflexivity.
Qed.

(** C10 (amended).  [decode_build_link] returns a dictionary exactly when
    the text is a payload between the markers, the payload is ASCII, and its
    lenient reading ends on a whole group after four alphabet characters or
    more ([consumed], which counts without decoding).  For an ASCII payload
    between the markers the count decides the rest as well: the envelope
    decodes to [3 * n / 4] bytes, a count of zero gives [None] on the empty
    payload (so does [[&]]), a count of two or three gives [None] as too
    short, and a reading that ends inside a group gives the base64 [None].
    A payload that decodes to one or two bytes gives [None] as too short. *)
Theorem decode_build_link_returns_iff_consumed (link_string : str) :
  ((exists d, decode_build_link link_string = Return d) <->
   (exists payload n,
      link_string = lit "[&" ++ payload ++ lit "]" /\
      ascii_str payload /\ consumed payload = Some n /\ 4 <= n)) /\
  decode_build_link (lit "[&]") = ReturnNone EmptyPayload /\
  (forall payload n,
      ascii_str payload -> consumed payload = Some n ->
      (exists decoded_bytes,
         decode_envelope (lit "[&" ++ payload ++ lit "]") = Return decoded_bytes /\
         Z.of_nat (List.length decoded_bytes) = 3 * n / 4) /\
      (n = 0 ->
       decode_build_link (lit "[&" ++ payload ++ lit "]") = ReturnNone EmptyPayload) /\
      (2 <= n <= 3 ->
       decode_build_link (lit "[&" ++ payload ++ lit "]") = ReturnNone TooShort)) /\
  (forall payload,
      ascii_str payload -> consumed payload = None ->
      decode_build_link (lit "[&" ++ payload ++ lit "]") = ReturnNone BadEncoding) /\
  (forall payload decoded_bytes,
      b64decode payload = inr decoded_bytes ->
      (1 <= List.length decoded_bytes <= 2)%nat ->
      decode_build_link (lit "[&" ++ payload ++ lit "]") = ReturnNone TooShort).
Proof.
  split; [|split; [reflexivity | split; [|split]]].
  - split.
    + intros [d H].
      destruct (returned_from _ _ H) as [payload [tag [ver [prof [rest [-> [Eb _]]]]]]].
      assert (Ha : ascii_str payload).
      { unfold b64decode in Eb.
        destruct (forallb (fun c => N.ltb c 128) payload) eqn:Ef; [|discriminate].
        apply Forall_forall. intros c Hc. rewrite forallb_forall in Ef.
        apply N.ltb_lt. auto. }
      pose proof (b64decode_agrees payload Ha) as Hag. rewrite Eb in Hag.
      destruct (consumed payload) as [n|] eqn:En; [|contradiction].
      exists payload, n. split; [reflexivity | split; [exact Ha | split; [exact En|]]].
      cbn [agrees List.length] in Hag. Z.to_euclidean_division_equations. lia.
    + intros [payload [n [-> [Ha [En Hn]]]]].
      pose proof (b64decode_agrees payload Ha) as Hag. rewrite En in Hag.
      fold (framed payload). rewrite decode_build_link_framed.
      destruct (b64decode payload) as [e|bs]; [contradiction|].
      cbn [agrees] in Hag.
      destruct bs as [|tag [|ver [|prof rest]]]; cbn [List.length] in Hag;
        try (exfalso; Z.to_euclidean_division_equations; lia).
      eexists. reflexivity.
  - intros payload n Ha En.
    pose proof (b64decode_agrees payload Ha) as Hag. rewrite En in Hag.
    fold (framed payload). rewrite decode_build_link_framed.
    unfold framed. rewrite decode_envelope_framed.
    destruct (b64decode payload) as [e|bs]; [contradiction|].
    cbn [agrees] in Hag.
    split; [exists bs; split; [reflexivity | exact Hag]|].
    destruct bs as [|tag [|ver [|prof rest]]]; cbn [List.length summary] in *;
      split; intros Hn; try reflexivity;
      exfalso; Z.to_euclidean_division_equations; lia.
  - intros payload Ha En.
    pose proof (b64decode_agrees payload Ha) as Hag. rewrite En in Hag.
    fold (framed payload). rewrite decode_build_link_framed.
    destruct (b64decode payload) as [e|bs]; [|contradiction].
    cbn [agrees] in Hag. rewrite Hag. reflexivity.
  - intros payload bs Eb Hlen.
    fold (framed payload). rewrite decode_build_link_framed, Eb.
    destruct bs as [|tag [|ver [|prof rest]]]; cbn in Hlen; try lia; reflexivity.
Qed.

Lemma decode_build_link_returns_iff_consumed_witness :
  ascii_str (lit "A*AAA") /\ consumed (lit "A*AAA") = Some 4 /\ 4 <= 4 /\
  (exists d, decode_build_link (lit "[&A*AAA]") = Return d) /\
  ascii_str (lit "/w==") /\ consumed (lit "/w==") = Some 2 /\
  decode_build_link (lit "[&/w==]") = ReturnNone TooShort.
Proof.
  assert (H1 : ascii_str (lit "A*AAA")) by (unfold ascii_str; repeat constructor).
  assert (H2 : consumed (lit "A*AAA") = Some 4) by reflexivity.
  assert (H3 : 4 <= 4) by lia.
  assert (H4 : ascii_str (lit "/w==")) by (unfold ascii_str; repeat constructor).
  assert (H5 : consumed (lit "/w==") = Some 2) by reflexivity.
  refine (conj H1 (conj H2 (conj H3 (conj _ (conj H4 (conj H5 _)))))).
  - apply (proj2 (proj1 (decode_build_link_returns_iff_consumed (lit "[&A*AAA]")))).
    exists (lit "A*AAA"), 4. exact (conj eq_refl (conj H1 (conj H2 H3))).
  - apply (proj2 (proj2 (proj1 (proj2 (proj2
             (decode_build_link_returns_iff_consumed [])))
             (lit "/w==") 2 H4 H5))).
    lia.
Defined.
